(** * SCBM-NexusLab: the bill page's share allocation and the identity hook

    A shallow embedding of
      - [frontend/app/bill/[id]/page.tsx]: the [myTotals] memo (the
        "Allocation Engine"), the per-item [myShare] of the item list,
        [getClaimants], [handleClaim] and the realtime callback;
      - the [useUser] hook: the mount effect that reads [localStorage] and
        [registerUser].

    JavaScript numbers are IEEE-754 binary64 values.  The engine is written
    once over an interface of the arithmetic it uses ([NumOps]) and is run at
    two instances: [float] (Rocq's primitive binary64 floats, what the page
    computes with) and [Qc] (exact rationals, the arithmetic the
    specification reasons in). *)

From stdpp Require Import gmap strings.
From Stdlib Require Import List ZArith QArith Qcanon Permutation Bool Lia.
From Stdlib Require Import Floats.PrimFloat Numbers.Cyclic.Int63.Uint63.
From Stdlib Require Import Strings.String Strings.Ascii.
Import ListNotations.

#[local] Open Scope string_scope.
#[local] Open Scope list_scope.
#[local] Open Scope nat_scope.

(** ** Numbers *)

(** The operations [myTotals] performs on numbers: the literal [0], [+], [*],
    [/], the test [a > b], and the conversion of an array length. *)
Class NumOps (num : Type) : Type := {
  nzero : num;
  nadd : num -> num -> num;
  nmul : num -> num -> num;
  ndiv : num -> num -> num;
  ngtb : num -> num -> bool;
  nof_nat : nat -> num
}.

(** JavaScript's [number]: binary64 with round-to-nearest-even; [a > b] is
    [b < a], false as soon as one side is NaN.  An array length is below
    2^32, where the conversion through [Uint63] is exact. *)
#[export] Instance float_ops : NumOps float := {|
  nzero := 0%float;
  nadd := PrimFloat.add;
  nmul := PrimFloat.mul;
  ndiv := PrimFloat.div;
  ngtb := fun a b => PrimFloat.ltb b a;
  nof_nat := fun n => PrimFloat.of_uint63 (Uint63.of_Z (Z.of_nat n))
|}.

Definition Qc_gtb (a b : Qc) : bool :=
  match Qccompare a b with Gt => true | _ => false end.

(** Exact rational arithmetic ([x / 0] is [0] there). *)
#[export] Instance exact_ops : NumOps Qc := {|
  nzero := 0%Qc;
  nadd := Qcplus;
  nmul := Qcmult;
  ndiv := Qcdiv;
  ngtb := Qc_gtb;
  nof_nat := fun n => Q2Qc (inject_Z (Z.of_nat n))
|}.

(** ** Data model (the interfaces of page.tsx and of the hook) *)

Module User.
Record t : Type := mk { id : string; name : string }.
End User.

Module Item.
Record t (num : Type) : Type := mk {
  id : string;
  name : string;
  quantity : num;
  unit_price : num;
  category : string
}.
Arguments mk {num} _ _ _ _ _.
Arguments id {num} _.
Arguments name {num} _.
Arguments quantity {num} _.
Arguments unit_price {num} _.
Arguments category {num} _.
End Item.

Module Claim.
(** [id] is the row key the realtime DELETE branch reads ([c.id]); the
    interface in page.tsx declares the other four fields. *)
Record t (num : Type) : Type := mk {
  id : string;
  item_id : string;
  user_id : string;
  user_name : string;
  percentage : num
}.
Arguments mk {num} _ _ _ _ _.
Arguments id {num} _.
Arguments item_id {num} _.
Arguments user_id {num} _.
Arguments user_name {num} _.
Arguments percentage {num} _.
End Claim.

Module Bill.
Record t (num : Type) : Type := mk {
  id : string;
  currency : string;
  total_amount : num;
  tax_amount : num;
  tip_amount : num
}.
Arguments mk {num} _ _ _ _ _.
Arguments id {num} _.
Arguments currency {num} _.
Arguments total_amount {num} _.
Arguments tax_amount {num} _.
Arguments tip_amount {num} _.
End Bill.

(** The object [myTotals] evaluates to. *)
Record Totals (num : Type) : Type := mkTotals {
  subtotal : num;
  tax : num;
  tip : num;
  total : num
}.
Arguments mkTotals {num} _ _ _ _.
Arguments subtotal {num} _.
Arguments tax {num} _.
Arguments tip {num} _.
Arguments total {num} _.

(** ** The Allocation Engine *)

(** A division the engine performs, with its divisor: by an item's claim
    count (line 114) or by the bill subtotal (line 119). *)
Inductive Division (num : Type) : Type :=
| DivByCount (splitCount : nat)
| DivBySubtotal (billSubtotal : num).
Arguments DivByCount {num} _.
Arguments DivBySubtotal {num} _.

Section Engine.
Context {num : Type} `{NumOps num}.

(** [claims.filter(c => c.item_id === itemId)] *)
Definition getClaimants (claims : list (Claim.t num)) (itemId : string)
  : list (Claim.t num) :=
  List.filter (fun c => String.eqb (Claim.item_id c) itemId) claims.

(** [const itemClaimants = claims.filter(c => c.item_id === item.id)] *)
Definition itemClaimants (claims : list (Claim.t num)) (item : Item.t num)
  : list (Claim.t num) :=
  List.filter (fun c => String.eqb (Claim.item_id c) (Item.id item)) claims.

(** [const isMine = itemClaimants.some(c => c.user_id === user.id)] *)
Definition isMine (claims : list (Claim.t num)) (user : User.t)
           (item : Item.t num) : bool :=
  List.existsb (fun c => String.eqb (Claim.user_id c) (User.id user))
               (itemClaimants claims item).

(** [const splitCount = itemClaimants.length] *)
Definition splitCount (claims : list (Claim.t num)) (item : Item.t num)
  : nat :=
  List.length (itemClaimants claims item).

(** The two running sums of the loop and the divisions done so far. *)
Record Acc : Type := mkAcc {
  mySubtotal : num;
  billSubtotal : num;
  divisions : list (Division num)
}.

(** The body of [items.forEach(item => ...)]. *)
Definition forEach_body (claims : list (Claim.t num)) (user : User.t)
           (acc : Acc) (item : Item.t num) : Acc :=
  let billSubtotal' := nadd (billSubtotal acc) (Item.unit_price item) in
  if isMine claims user item then
    let n := splitCount claims item in
    mkAcc (nadd (mySubtotal acc) (ndiv (Item.unit_price item) (nof_nat n)))
          billSubtotal'
          (divisions acc ++ [DivByCount n])
  else
    mkAcc (mySubtotal acc) billSubtotal' (divisions acc).

(** [const ratio = billSubtotal > 0 ? (mySubtotal / billSubtotal) : 0] *)
Definition ratio (acc : Acc) : num * list (Division num) :=
  if ngtb (billSubtotal acc) nzero
  then (ndiv (mySubtotal acc) (billSubtotal acc),
        divisions acc ++ [DivBySubtotal (billSubtotal acc)])
  else (nzero, divisions acc).

Definition zeroTotals : Totals num := mkTotals nzero nzero nzero nzero.

(** The [useMemo] callback, with the divisions it performed. *)
Definition myTotals_run (items : list (Item.t num))
           (claims : list (Claim.t num)) (bill : option (Bill.t num))
           (user : option User.t) : Totals num * list (Division num) :=
  match user, bill with
  | Some u, Some b =>
      let acc := List.fold_left (forEach_body claims u) items
                                (mkAcc nzero nzero []) in
      let '(r, divs) := ratio acc in
      let myTax := nmul (Bill.tax_amount b) r in
      let myTip := nmul (Bill.tip_amount b) r in
      (mkTotals (mySubtotal acc) myTax myTip
                (nadd (nadd (mySubtotal acc) myTax) myTip),
       divs)
  | _, _ => (zeroTotals, [])
  end.

Definition myTotals (items : list (Item.t num))
           (claims : list (Claim.t num)) (bill : option (Bill.t num))
           (user : option User.t) : Totals num :=
  fst (myTotals_run items claims bill user).

(** [s === o] for a string [s] and a possibly-undefined [o]. *)
Definition strictEq (s : string) (o : option string) : bool :=
  match o with
  | Some t => String.eqb s t
  | None => false
  end.

(** Lines 169-172 of the item list, where [user] may still be [null]:
    [claimants.some(c => c.user_id === user?.id)] and
    [const myShare = isMine ? (item.unit_price / splitCount) : 0]. *)
Definition myShare (claims : list (Claim.t num)) (user : option User.t)
           (item : Item.t num) : num :=
  let claimants := getClaimants claims (Item.id item) in
  let isMine :=
    List.existsb
      (fun c => strictEq (Claim.user_id c) (option_map User.id user))
      claimants in
  let splitCount := List.length claimants in
  if isMine then ndiv (Item.unit_price item) (nof_nat splitCount)
  else nzero.

End Engine.

(** ** The reference algorithm, in the specification's words *)

Section Reference.
Context {num : Type} `{NumOps num}.

(** A running sum started at [0]. *)
Definition sum (l : list num) : num := List.fold_left nadd l nzero.

(** The claims whose [item_id] matches the item. *)
Definition spec_claimants (claims : list (Claim.t num)) (item : Item.t num)
  : list (Claim.t num) :=
  List.filter
    (fun c => if string_dec (Claim.item_id c) (Item.id item)
              then true else false)
    claims.

(** [currentUser.id] is among the claimants' [user_id]s. *)
Definition spec_claimed_by (claims : list (Claim.t num)) (u : User.t)
           (item : Item.t num) : bool :=
  if in_dec string_dec (User.id u)
            (List.map Claim.user_id (spec_claimants claims item))
  then true else false.

(** [unit_price] divided by the number of claims on the item. *)
Definition spec_share (claims : list (Claim.t num)) (item : Item.t num)
  : num :=
  ndiv (Item.unit_price item)
       (nof_nat (List.length (spec_claimants claims item))).

Definition spec_mySubtotal (items : list (Item.t num))
           (claims : list (Claim.t num)) (u : User.t) : num :=
  sum (List.map (spec_share claims)
                (List.filter (spec_claimed_by claims u) items)).

Definition spec_billSubtotal (items : list (Item.t num)) : num :=
  sum (List.map Item.unit_price items).

Definition spec_ratio (mine whole : num) : num :=
  if ngtb whole nzero then ndiv mine whole else nzero.

Definition spec_totals (items : list (Item.t num))
           (claims : list (Claim.t num)) (bill : option (Bill.t num))
           (user : option User.t) : Totals num :=
  match user, bill with
  | Some u, Some b =>
      let mine := spec_mySubtotal items claims u in
      let r := spec_ratio mine (spec_billSubtotal items) in
      let t := nmul (Bill.tax_amount b) r in
      let p := nmul (Bill.tip_amount b) r in
      mkTotals mine t p (nadd (nadd mine t) p)
  | _, _ => mkTotals nzero nzero nzero nzero
  end.

(** The distinct claimants of an item: the different [user_id]s among the
    claims that reference it. *)
Definition distinctClaimants (claims : list (Claim.t num))
           (item : Item.t num) : list string :=
  List.nodup string_dec (List.map Claim.user_id (spec_claimants claims item)).

(** [users] are the claimants of the item: one user for each distinct
    [user_id] among the claims on it. *)
Definition claimants_of (claims : list (Claim.t num)) (item : Item.t num)
           (users : list User.t) : Prop :=
  List.map User.id users = distinctClaimants claims item.

(** The shares of these users in the item, as the item list computes
    them. *)
Definition shares_of (claims : list (Claim.t num)) (item : Item.t num)
           (users : list User.t) : list num :=
  List.map (fun u => myShare claims (Some u) item) users.

(** Two claims that agree on everything but [percentage]. *)
Definition same_but_percentage (c c' : Claim.t num) : Prop :=
  Claim.id c = Claim.id c' /\
  Claim.item_id c = Claim.item_id c' /\
  Claim.user_id c = Claim.user_id c' /\
  Claim.user_name c = Claim.user_name c'.

(** A division whose divisor is not zero: a count of at least one, or a
    bill subtotal that passed the test [billSubtotal > 0]. *)
Definition guarded (d : Division num) : Prop :=
  match d with
  | DivByCount n => 1 <= n
  | DivBySubtotal b => ngtb b nzero = true
  end.

End Reference.

(** ** The identity hook ([useUser]) *)

(** [localStorage]: string keys to string values; [getItem] of a missing key
    is [null]. *)
Abbreviation localStorage := (gmap string string).

Definition KEY_ID : string := "bill_splitter_user_id".
Definition KEY_NAME : string := "bill_splitter_user_name".

Definition getItem (k : string) (ls : localStorage) : option string := ls !! k.
Definition setItem (k v : string) (ls : localStorage) : localStorage :=
  <[k := v]> ls.

(** Truthiness of a [string | null | undefined]: [null], [undefined] and the
    empty string are falsy. *)
Definition truthy (s : option string) : bool :=
  match s with
  | Some t => negb (String.eqb t "")
  | None => false
  end.

(** The two [useState] cells of the hook. *)
Record HookState : Type := mkHook {
  user : option User.t;
  loading : bool
}.

(** State of a freshly mounted hook: [useState(null)], [useState(true)]. *)
Definition hook_init : HookState := mkHook None true.

(** The mount effect: read both keys, [setUser] when both are truthy, then
    [setLoading(false)]. *)
Definition useUser_effect (ls : localStorage) (h : HookState) : HookState :=
  let storedId := getItem KEY_ID ls in
  let storedName := getItem KEY_NAME ls in
  match storedId, storedName with
  | Some i, Some n =>
      if truthy storedId && truthy storedName
      then mkHook (Some (User.mk i n)) false
      else mkHook (user h) false
  | _, _ => mkHook (user h) false
  end.

(** The identity a reload resolves: a fresh hook after its mount effect. *)
Definition resolveIdentity (ls : localStorage) : option User.t :=
  user (useUser_effect ls hook_init).

(** [registerUser(name)], where [newId] is the value [uuidv4()] returned. *)
Definition registerUser (newId name : string)
           (st : localStorage * HookState) : localStorage * HookState :=
  let '(ls, h) := st in
  let ls1 := setItem KEY_ID newId ls in
  let ls2 := setItem KEY_NAME name ls1 in
  (ls2, mkHook (Some (User.mk newId name)) (loading h)).

(** [String.prototype.trim].  A JavaScript string is held as its UTF-8
    bytes.  The code points removed are ECMAScript's white space and line
    terminators: TAB, LF, VT, FF, CR, SP, U+00A0, U+1680, U+2000 to U+200A,
    U+2028, U+2029, U+202F, U+205F, U+3000 and U+FEFF. *)
Definition isWhiteSpace (c : ascii) : bool :=
  match nat_of_ascii c with
  | 9 | 10 | 11 | 12 | 13 | 32 => true
  | _ => false
  end.

Definition byte_is (c : ascii) (n : nat) : bool :=
  Nat.eqb (nat_of_ascii c) n.

(** The third byte of U+2000 to U+200A, U+2028, U+2029 and U+202F, which
    all start with the bytes E2 80. *)
Definition isSpaceE280 (c : ascii) : bool :=
  let n := nat_of_ascii c in
  ((128 <=? n) && (n <=? 138)) || Nat.eqb n 168 || Nat.eqb n 169
  || Nat.eqb n 175.

(** The bytes [c d e] encode a white-space code point of three bytes:
    U+1680 (E1 9A 80), the E2 80 group, U+205F (E2 81 9F), U+3000
    (E3 80 80) or U+FEFF (EF BB BF). *)
Definition isWhiteSpace3 (c d e : ascii) : bool :=
  (byte_is c 225 && byte_is d 154 && byte_is e 128)
  || (byte_is c 226 && byte_is d 128 && isSpaceE280 e)
  || (byte_is c 226 && byte_is d 129 && byte_is e 159)
  || (byte_is c 227 && byte_is d 128 && byte_is e 128)
  || (byte_is c 239 && byte_is d 187 && byte_is e 191).

Fixpoint trimStart (s : string) : string :=
  match s with
  | EmptyString => EmptyString
  | String c s1 =>
      if isWhiteSpace c then trimStart s1
      else
        match s1 with
        | String d s2 =>
            if byte_is c 194 && byte_is d 160 then trimStart s2
            else
              match s2 with
              | String e s3 =>
                  if isWhiteSpace3 c d e then trimStart s3 else s
              | EmptyString => s
              end
        | EmptyString => s
        end
  end.

(** The string without its longest suffix made of white space only. *)
Fixpoint trimEnd (s : string) : string :=
  match s with
  | EmptyString => EmptyString
  | String c s' =>
      if String.eqb (trimStart (String c s')) EmptyString then EmptyString
      else String c (trimEnd s')
  end.

Definition trim (s : string) : string := trimEnd (trimStart s).

(** ** The page: state, effects, [handleClaim] and the realtime callback *)

(** What [fetch] did: a response with its status, or a rejected promise. *)
Inductive FetchOutcome : Type :=
| Responded (status : nat)
| Rejected.

(** [response.ok]: the status is in the range 200-299. *)
Definition response_ok (status : nat) : bool :=
  (200 <=? status) && (status <=? 299).

(** The value caught by [catch (error)]. *)
Inductive Thrown : Type :=
| ServerError (status : nat)
| TransportError.

(** The JSON body of the claim request. *)
Record ClaimBody : Type := mkBody {
  body_item_id : string;
  body_user_id : string;
  body_user_name : string
}.

(** Effects visible outside the component. *)
Inductive Event : Type :=
| ConsoleError (msg : string) (detail : option Thrown)
| Alert (msg : string)
| FetchPost (url : string) (body : ClaimBody).

Definition is_alert (e : Event) : bool :=
  match e with Alert _ => true | _ => false end.

Definition is_network_call (e : Event) : bool :=
  match e with FetchPost _ _ => true | _ => false end.

Section Page.
Context {num : Type}.

(** The component's state: its own [useState] cells, the hook's cells and
    the browser's [localStorage]. *)
Record World : Type := mkWorld {
  items : list (Item.t num);
  claims : list (Claim.t num);
  bill : option (Bill.t num);
  inputName : string;
  showSummary : bool;
  hook : HookState;
  storage : localStorage
}.

(** A computation that reads and writes the state and emits events. *)
Definition Eff (A : Type) : Type := World -> A * World * list Event.

Definition ret {A : Type} (a : A) : Eff A := fun w => (a, w, []).

Definition bind {A B : Type} (m : Eff A) (k : A -> Eff B) : Eff B :=
  fun w =>
    let '(a, w1, e1) := m w in
    let '(b, w2, e2) := k a w1 in
    (b, w2, e1 ++ e2).

Definition get : Eff World := fun w => (w, w, []).
Definition emit (e : Event) : Eff unit := fun w => (tt, w, [e]).

Definition setItems (l : list (Item.t num)) : Eff unit :=
  fun w => (tt, mkWorld l (claims w) (bill w) (inputName w) (showSummary w)
                        (hook w) (storage w), []).
Definition setClaims (f : list (Claim.t num) -> list (Claim.t num))
  : Eff unit :=
  fun w => (tt, mkWorld (items w) (f (claims w)) (bill w) (inputName w)
                        (showSummary w) (hook w) (storage w), []).
Definition setBill (b : Bill.t num) : Eff unit :=
  fun w => (tt, mkWorld (items w) (claims w) (Some b) (inputName w)
                        (showSummary w) (hook w) (storage w), []).

Definition world_of {A : Type} (r : A * World * list Event) : World :=
  snd (fst r).
Definition events_of {A : Type} (r : A * World * list Event) : list Event :=
  snd r.

End Page.

(** The page's computations use stdpp's monad notations. *)
#[export] Instance Eff_ret {num : Type} : MRet (Eff (num := num)) :=
  fun A => ret.
#[export] Instance Eff_bind {num : Type} : MBind (Eff (num := num)) :=
  fun A B k m => bind m k.

Section Handlers.
Context {num : Type}.

(** The [catch] block of [handleClaim]. *)
Definition catch_block (error : Thrown) : Eff (num := num) unit :=
  emit (ConsoleError "Network Error:" (Some error)) ;;
  emit (Alert
    "Could not connect to server. Check if backend/ngrok is running.").

(** [handleClaim(itemId)]; [apiUrl] is [process.env.NEXT_PUBLIC_API_URL]
    and [net] is what the [fetch] call does if it is made. *)
Definition handleClaim (apiUrl : option string) (net : FetchOutcome)
           (billId itemId : string) : Eff (num := num) unit :=
  w ← get;
  match user (hook w) with
  | None => ret tt
  | Some u =>
      match apiUrl with
      | Some url =>
          if truthy apiUrl then
            emit (FetchPost (url ++ "/v1/bills/" ++ billId ++ "/claim")
                            (mkBody itemId (User.id u) (User.name u))) ;;
            match net with
            | Responded status =>
                if response_ok status then ret tt
                else catch_block (ServerError status)
            | Rejected => catch_block TransportError
            end
          else
            emit (ConsoleError "API URL is not defined in .env.local" None)
      | None =>
          emit (ConsoleError "API URL is not defined in .env.local" None)
      end
  end.

(** What the three reads of [fetchData] returned ([data] may be [null]). *)
Record Reads : Type := mkReads {
  billData : option (Bill.t num);
  itemsData : option (list (Item.t num));
  claimsData : option (list (Claim.t num))
}.

Definition fetchData (r : Reads) : Eff (num := num) unit :=
  match billData r with Some b => setBill b | None => ret tt end ;;
  match itemsData r with Some l => setItems l | None => ret tt end ;;
  match claimsData r with
  | Some l => setClaims (fun _ => l)
  | None => ret tt
  end.

(** The payload of a change on the [claims] table. *)
Inductive Payload : Type :=
| INSERT (new : Claim.t num)
| DELETE (old_id : string)
| UPDATE.

(** The [postgres_changes] callback, with the refetch it starts taken to
    its completion. *)
Definition onClaimsChange (payload : Payload) (r : Reads)
  : Eff (num := num) unit :=
  match payload with
  | INSERT c => setClaims (fun p => p ++ [c])
  | DELETE old_id =>
      setClaims
        (List.filter (fun c => negb (String.eqb (Claim.id c) old_id)))
  | UPDATE => ret tt
  end ;;
  fetchData r.

End Handlers.

(** ** Divisors and prices of the binary64 instance *)

(** A division of the binary64 engine whose divisor is not a zero. *)
Definition nonzero_divisor (d : Division float) : Prop :=
  match d with
  | DivByCount n => 1 <= n
  | DivBySubtotal b =>
      PrimFloat.ltb 0%float b = true /\ b <> 0%float /\ b <> (-0)%float
  end.

(** A price that is zero: [0] or [-0]. *)
Definition zero_price (i : Item.t float) : Prop :=
  Item.unit_price i = 0%float \/ Item.unit_price i = (-0)%float.

Definition is_by_subtotal {num : Type} (d : Division num) : bool :=
  match d with DivBySubtotal _ => true | DivByCount _ => false end.

(** ** Concrete bills used in the examples *)

#[local] Set Warnings "-inexact-float".

Module Sample.

Definition alice : User.t := User.mk "u-alice" "Alice".
Definition bob : User.t := User.mk "u-bob" "Bob".

Section Generic.
Context {num : Type} `{NumOps num}.

(** An item row whose price is the whole number [price]. *)
Definition item (id : string) (price : nat) : Item.t num :=
  Item.mk id id (nof_nat 1) (nof_nat price) "food".

(** A claim row of [u] on the item [item_id]. *)
Definition claim (row item_id : string) (u : User.t) : Claim.t num :=
  Claim.mk row item_id (User.id u) (User.name u) (nof_nat 100).

Definition bill (tax_amount tip_amount : nat) : Bill.t num :=
  Bill.mk "b1" "THB" (nof_nat 0) (nof_nat tax_amount) (nof_nat tip_amount).

(** One claim row per user on the item ["i1"]. *)
Definition claims_of (users : list User.t) : list (Claim.t num) :=
  List.map (fun u => claim ("c-" ++ User.id u) "i1" u) users.

(** An item of 90 claimed by Alice and Bob, and a second claim row of
    Alice on it. *)
Definition steak : Item.t num := item "i1" 90.
Definition two_claims : list (Claim.t num) :=
  [ claim "c1" "i1" alice; claim "c2" "i1" bob ].
Definition repeat_claim : Claim.t num := claim "c3" "i1" alice.
End Generic.

(** [n] users with the ids ["A"], ["B"], ... *)
Fixpoint guests (n : nat) : list User.t :=
  match n with
  | O => []
  | S k => guests k ++ [User.mk (String (ascii_of_nat (65 + k)) "") "guest"]
  end.

(** The first of them. *)
Definition claimant_A : User.t := User.mk "A" "guest".

(** Three items priced 0.1, 0.2 and 0.3. *)
Definition dimes : list (Item.t float) :=
  [ Item.mk "i1" "gum" 1%float 0.1%float "food";
    Item.mk "i2" "mint" 1%float 0.2%float "food";
    Item.mk "i3" "candy" 1%float 0.3%float "food" ].

Definition dimes_claims : list (Claim.t float) :=
  [ claim "c1" "i1" alice; claim "c2" "i2" alice; claim "c3" "i3" alice ].

(** A world with a resolved user and an empty bill. *)
Definition world0 : World (num := float) :=
  mkWorld [] [] None "" false (mkHook (Some alice) false) ∅.

End Sample.

(** ** The item list, the summary button and the identity modal *)

Section View.
Context {num : Type} `{NumOps num}.

(** Lines 169-173 of the item list:
    [const displayPrice = isMine ? myShare : item.unit_price]. *)
Definition displayPrice (claims : list (Claim.t num)) (user : option User.t)
           (item : Item.t num) : num :=
  let claimants := getClaimants claims (Item.id item) in
  let isMine :=
    List.existsb
      (fun c => strictEq (Claim.user_id c) (option_map User.id user))
      claimants in
  let splitCount := List.length claimants in
  let myShare :=
    if isMine then ndiv (Item.unit_price item) (nof_nat splitCount)
    else nzero in
  if isMine then myShare else Item.unit_price item.

(** Line 170, the highlight of an item row:
    [claimants.some(c => c.user_id === user?.id)]. *)
Definition rowIsMine (claims : list (Claim.t num)) (user : option User.t)
           (item : Item.t num) : bool :=
  List.existsb
    (fun c => strictEq (Claim.user_id c) (option_map User.id user))
    (getClaimants claims (Item.id item)).

(** Line 217, the count on the summary button:
    [claims.filter(c => c.user_id === user?.id).length]. *)
Definition myItemsCount (claims : list (Claim.t num)) (user : option User.t)
  : nat :=
  List.length
    (List.filter
       (fun c => strictEq (Claim.user_id c) (option_map User.id user))
       claims).

(** Line 136, the identity modal is rendered: [!user]. *)
Definition modalVisible (w : World (num := num)) : bool :=
  match user (hook w) with
  | None => true
  | Some _ => false
  end.

(** Line 143, the Join button: [disabled={!inputName.trim()}]. *)
Definition joinDisabled (w : World (num := num)) : bool :=
  negb (truthy (Some (trim (inputName w)))).


(** The hook's [registerUser] run inside the page. *)
Definition page_registerUser (newId name : string) : Eff (num := num) unit :=
  fun w =>
    let '(ls, h) := registerUser newId name (storage w, hook w) in
    (tt, mkWorld (items w) (claims w) (bill w) (inputName w) (showSummary w)
                 h ls, []).

(** A click on the Join button, [onClick={() => registerUser(inputName)}]:
    the button exists while the modal is rendered and fires unless it is
    disabled. *)
Definition joinClick (newId : string) : Eff (num := num) unit :=
  fun w =>
    if modalVisible w && negb (joinDisabled w)
    then page_registerUser newId (inputName w) w
    else ret tt w.

(** A click on an item row, [onClick={() => handleClaim(item.id)}]. *)
Definition itemClick (apiUrl : option string) (net : FetchOutcome)
           (billId : string) (item : Item.t num) : Eff (num := num) unit :=
  handleClaim apiUrl net billId (Item.id item).

(** A claim that references one of the listed items. *)
Definition on_listed_item (items : list (Item.t num)) (c : Claim.t num)
  : bool :=
  List.existsb (fun i => String.eqb (Claim.item_id c) (Item.id i)) items.

End View.

(** ** Everything the page can do *)

Section Actions.
Context {num : Type}.








End Actions.

(** Sums in exact arithmetic, written from the right. *)
Definition total_exact (l : list Qc) : Qc := List.fold_right Qcplus 0%Qc l.

(** The subtotal the engine gives to each of the users. *)
Definition subtotals_exact (items : list (Item.t Qc))
           (claims : list (Claim.t Qc)) (b : Bill.t Qc)
           (users : list User.t) : list Qc :=
  List.map (fun u => subtotal (myTotals items claims (Some b) (Some u))) users.

(** The items that have at least one claim row. *)
Definition claimed_items {num : Type} (claims : list (Claim.t num))
           (items : list (Item.t num)) : list (Item.t num) :=
  List.filter (fun i => 0 <? splitCount claims i) items.

Module Demo.

(** Two items of 90 and 15; Alice and Bob share the first, Bob has the
    second. *)
Definition menu {num : Type} `{NumOps num} : list (Item.t num) :=
  [ Sample.item "i1" 90; Sample.item "i2" 15 ].

Definition rows {num : Type} `{NumOps num} : list (Claim.t num) :=
  [ Sample.claim "c1" "i1" Sample.alice;
    Sample.claim "c2" "i1" Sample.bob;
    Sample.claim "c3" "i2" Sample.bob ].

(** A claim row on an item of another bill. *)
Definition stray {num : Type} `{NumOps num} : Claim.t num :=
  Sample.claim "c9" "other-bill-item" Sample.alice.

(** A page on which nobody is registered yet and [name] is typed in. *)
Definition typing (name : string) : World (num := float) :=
  mkWorld [] [] None name false hook_init ∅.

(** Alice's page with the three rows loaded. *)
Definition loaded : World (num := float) :=
  mkWorld menu rows (Some (Sample.bill 20 10)) "" false
          (mkHook (Some Sample.alice) false) ∅.

End Demo.

(** * Properties *)

(** ** The engine as two running sums *)

Section EngineFacts.
Context {num : Type} `{NumOps num}.
Implicit Types (items : list (Item.t num)) (claims : list (Claim.t num)).

Lemma fold_billSubtotal claims u items acc :
  billSubtotal (List.fold_left (forEach_body claims u) items acc) =
  List.fold_left nadd (List.map Item.unit_price items) (billSubtotal acc).
Proof.
  revert acc; induction items as [|i items IH]; intros acc; simpl.
  - reflexivity.
  - rewrite IH. unfold forEach_body.
    destruct (isMine claims u i); reflexivity.
Qed.

Lemma fold_mySubtotal claims u items acc :
  mySubtotal (List.fold_left (forEach_body claims u) items acc) =
  List.fold_left nadd
    (List.map (fun i => ndiv (Item.unit_price i)
                             (nof_nat (splitCount claims i)))
              (List.filter (isMine claims u) items))
    (mySubtotal acc).
Proof.
  revert acc; induction items as [|i items IH]; intros acc; simpl.
  - reflexivity.
  - rewrite IH. unfold forEach_body.
    destruct (isMine claims u i); reflexivity.
Qed.

Lemma spec_claimants_itemClaimants claims i :
  spec_claimants claims i = itemClaimants claims i.
Proof.
  unfold spec_claimants, itemClaimants.
  apply List.filter_ext; intros c.
  destruct (string_dec (Claim.item_id c) (Item.id i)) as [e|n].
  - symmetry. now apply String.eqb_eq.
  - symmetry. now apply String.eqb_neq.
Qed.

Lemma existsb_user_id (l : list (Claim.t num)) (uid : string) :
  List.existsb (fun c => String.eqb (Claim.user_id c) uid) l = true <->
  In uid (List.map Claim.user_id l).
Proof.
  rewrite List.existsb_exists, List.in_map_iff. split.
  - intros (c & Hin & Heq). apply String.eqb_eq in Heq. eauto.
  - intros (c & Heq & Hin). exists c. split; [assumption|].
    now apply String.eqb_eq.
Qed.

Lemma spec_claimed_by_isMine claims u i :
  spec_claimed_by claims u i = isMine claims u i.
Proof.
  unfold spec_claimed_by, isMine.
  rewrite spec_claimants_itemClaimants.
  destruct (in_dec string_dec (User.id u)
              (List.map Claim.user_id (itemClaimants claims i))) as [Hin|Hn].
  - symmetry. now apply existsb_user_id.
  - symmetry. apply not_true_is_false. intros E. apply Hn.
    now apply existsb_user_id.
Qed.

Lemma spec_share_splitCount claims i :
  spec_share claims i =
  ndiv (Item.unit_price i) (nof_nat (splitCount claims i)).
Proof.
  unfold spec_share, splitCount. now rewrite spec_claimants_itemClaimants.
Qed.

Lemma ratio_spec acc :
  fst (ratio acc) = spec_ratio (mySubtotal acc) (billSubtotal acc).
Proof.
  unfold ratio, spec_ratio.
  destruct (ngtb (billSubtotal acc) nzero); reflexivity.
Qed.

(** C1: for every input the engine returns the totals of the reference
    algorithm: all zeros when the user or the bill is absent; otherwise the
    subtotal is the running sum of [unit_price / number of claims on the
    item] over the items one of whose claimants is the user, the ratio is
    [mySubtotal / billSubtotal] when the sum of all prices is [> 0] and [0]
    otherwise, tax and tip are the bill's amounts times the ratio and the
    total is [subtotal + tax + tip]. *)
Theorem myTotals_is_reference items claims (bill : option (Bill.t num))
        (user : option User.t) :
  myTotals items claims bill user = spec_totals items claims bill user.
Proof.
  unfold myTotals, myTotals_run, spec_totals.
  destruct user as [u|]; [|reflexivity].
  destruct bill as [b|]; [|reflexivity].
  set (acc := List.fold_left _ _ _).
  pose proof (ratio_spec acc) as Hr.
  destruct (ratio acc) as [r divs]; simpl in Hr; subst r; simpl.
  assert (Hm : mySubtotal acc = spec_mySubtotal items claims u).
  { unfold acc. rewrite fold_mySubtotal. unfold spec_mySubtotal, sum. simpl.
    f_equal. rewrite (List.filter_ext _ _ (spec_claimed_by_isMine claims u)).
    apply List.map_ext; intros i. symmetry. apply spec_share_splitCount. }
  assert (Hb : billSubtotal acc = spec_billSubtotal items).
  { unfold acc. rewrite fold_billSubtotal. reflexivity. }
  rewrite Hm, Hb. reflexivity.
Qed.

End EngineFacts.


(** ** The split count *)

Section SplitCount.
Context {num : Type} `{NumOps num}.
Implicit Types (claims : list (Claim.t num)) (item : Item.t num).

Lemma getClaimants_itemClaimants claims item :
  getClaimants claims (Item.id item) = itemClaimants claims item.
Proof. reflexivity. Qed.

Lemma splitCount_app claims claims' item :
  splitCount (claims ++ claims') item =
  splitCount claims item + splitCount claims' item.
Proof.
  unfold splitCount, itemClaimants.
  now rewrite List.filter_app, List.length_app.
Qed.

Lemma splitCount_single (c : Claim.t num) item :
  Claim.item_id c = Item.id item -> splitCount [c] item = 1.
Proof.
  intros E. unfold splitCount, itemClaimants. simpl.
  rewrite E, String.eqb_refl. reflexivity.
Qed.

Lemma distinct_le_rows (l : list string) :
  List.length (List.nodup string_dec l) <= List.length l.
Proof.
  apply List.NoDup_incl_length.
  - apply List.NoDup_nodup.
  - intros x Hx. now apply List.nodup_In in Hx.
Qed.

Lemma isMine_splitCount claims u item :
  isMine claims u item = true -> 1 <= splitCount claims item.
Proof.
  unfold isMine, splitCount.
  destruct (itemClaimants claims item) as [|c l]; simpl.
  - discriminate.
  - intros _. lia.
Qed.

(** C2 (amended): the divisor of an item's share is the number of claim
    rows that reference the item.  It is never smaller than the number of
    distinct claimants and equals it when no user has two claim rows on the
    item; one more claim row on the item, whatever its user, makes the
    divisor one larger. *)
Theorem splitCount_counts_claim_rows claims item (c : Claim.t num) :
  Claim.item_id c = Item.id item ->
  splitCount claims item = List.length (spec_claimants claims item) /\
  splitCount (claims ++ [c]) item = S (splitCount claims item) /\
  List.length (distinctClaimants claims item) <= splitCount claims item /\
  (List.NoDup (List.map Claim.user_id (itemClaimants claims item)) ->
   splitCount claims item = List.length (distinctClaimants claims item)).
Proof.
  intros E. repeat split.
  - unfold splitCount. now rewrite spec_claimants_itemClaimants.
  - rewrite splitCount_app, (splitCount_single c item E). lia.
  - unfold distinctClaimants, splitCount.
    rewrite spec_claimants_itemClaimants.
    etransitivity; [apply distinct_le_rows|].
    now rewrite List.length_map.
  - intros ND. unfold distinctClaimants, splitCount.
    rewrite spec_claimants_itemClaimants.
    rewrite (List.nodup_fixed_point string_dec ND).
    now rewrite List.length_map.
Qed.

End SplitCount.

(** ** The [percentage] field *)

Section Percentage.
Context {num : Type} `{NumOps num}.
Implicit Types (claims : list (Claim.t num)) (item : Item.t num).

Lemma itemClaimants_rel claims claims' item :
  Forall2 same_but_percentage claims claims' ->
  Forall2 same_but_percentage (itemClaimants claims item)
                              (itemClaimants claims' item).
Proof.
  unfold itemClaimants.
  induction 1 as [|c c' l l' R _ IH]; simpl.
  - constructor.
  - pose proof R as (_ & Ei & _). rewrite <- Ei.
    destruct (String.eqb (Claim.item_id c) (Item.id item)).
    + constructor; [exact R | exact IH].
    + exact IH.
Qed.

Lemma existsb_rel (l l' : list (Claim.t num)) (uid : string) :
  Forall2 same_but_percentage l l' ->
  List.existsb (fun c => String.eqb (Claim.user_id c) uid) l =
  List.existsb (fun c => String.eqb (Claim.user_id c) uid) l'.
Proof.
  induction 1 as [|c c' l l' R _ IH]; simpl.
  - reflexivity.
  - destruct R as (_ & _ & Eu & _). now rewrite Eu, IH.
Qed.

Lemma forEach_body_rel claims claims' u acc item :
  Forall2 same_but_percentage claims claims' ->
  forEach_body claims u acc item = forEach_body claims' u acc item.
Proof.
  intros R. pose proof (itemClaimants_rel claims claims' item R) as Ri.
  unfold forEach_body, isMine, splitCount.
  rewrite (existsb_rel _ _ (User.id u) Ri).
  now rewrite (Forall2_length Ri).
Qed.

Lemma fold_left_ext_body {A B : Type} (f g : A -> B -> A) (l : list B) :
  (forall a b, f a b = g a b) ->
  forall a, List.fold_left f l a = List.fold_left g l a.
Proof.
  intros E. induction l as [|b l IH]; intros a; simpl.
  - reflexivity.
  - now rewrite E, IH.
Qed.

(** C3: the engine does not read [percentage]: two claim sequences that
    differ at most in the [percentage] of their rows give the same totals
    (and the same divisions), with the items, the bill and the user fixed. *)
Theorem myTotals_ignores_percentage (items : list (Item.t num)) claims claims'
        (bill : option (Bill.t num)) (user : option User.t) :
  Forall2 same_but_percentage claims claims' ->
  myTotals items claims bill user = myTotals items claims' bill user /\
  myTotals_run items claims bill user = myTotals_run items claims' bill user.
Proof.
  intros R.
  assert (E : myTotals_run items claims bill user =
              myTotals_run items claims' bill user).
  { unfold myTotals_run.
    destruct user as [u|]; [|reflexivity].
    destruct bill as [b|]; [|reflexivity].
    rewrite (fold_left_ext_body (forEach_body claims u)
               (forEach_body claims' u) items
               (fun a i => forEach_body_rel claims claims' u a i R)).
    reflexivity. }
  split; [unfold myTotals; now rewrite E | exact E].
Qed.

End Percentage.

(** The witness of C3: Alice's and Bob's rows with 100 percent each against
    the same rows with 70 and 30 percent. *)
Lemma myTotals_ignores_percentage_witness :
  let claims : list (Claim.t float) := Sample.two_claims in
  let claims' : list (Claim.t float) :=
    [ Claim.mk "c1" "i1" "u-alice" "Alice" 70%float;
      Claim.mk "c2" "i1" "u-bob" "Bob" 30%float ] in
  myTotals [Sample.steak] claims (Some (Sample.bill 20 10)) (Some Sample.alice)
  = myTotals [Sample.steak] claims' (Some (Sample.bill 20 10))
             (Some Sample.alice).
Proof.
  intros claims claims'.
  apply (myTotals_ignores_percentage [Sample.steak] claims claims').
  repeat constructor.
Defined.

(** The witness of C2: a third row on the item of 90. *)
Lemma splitCount_counts_claim_rows_witness :
  splitCount (Sample.two_claims ++ [Sample.repeat_claim])
             (Sample.steak (num := float)) = 3.
Proof.
  apply (splitCount_counts_claim_rows Sample.two_claims Sample.steak
           Sample.repeat_claim).
  reflexivity.
Defined.

(** C2, as stated, fails: Alice already claims the item of 90 she shares
    with Bob; a second row for Alice leaves two distinct claimants but makes
    the divisor 3, Bob's share 30 instead of 45, and changes Alice's
    totals. *)
Lemma duplicate_claim_changes_share :
  let claims : list (Claim.t float) := Sample.two_claims in
  let dup : Claim.t float := Sample.repeat_claim in
  let b := Some (Sample.bill 20 10) in
  (exists c, In c claims /\ Claim.item_id c = Claim.item_id dup /\
             Claim.user_id c = Claim.user_id dup) /\
  List.length (distinctClaimants (claims ++ [dup]) Sample.steak) = 2 /\
  splitCount (claims ++ [dup]) Sample.steak = 3 /\
  myShare claims (Some Sample.bob) Sample.steak = 45%float /\
  myShare (claims ++ [dup]) (Some Sample.bob) Sample.steak = 30%float /\
  myTotals [Sample.steak] (claims ++ [dup]) b (Some Sample.alice) <>
  myTotals [Sample.steak] claims b (Some Sample.alice).
Proof.
  cbv zeta. repeat split.
  - exists (Sample.claim "c1" "i1" Sample.alice).
    repeat split. left. reflexivity.
  - intros E. apply (f_equal subtotal) in E.
    apply (f_equal (fun x => PrimFloat.eqb x 30%float)) in E.
    vm_compute in E. discriminate E.
Qed.

(** ** Sums of shares *)

Lemma nof_nat_succ_exact (k : nat) :
  nof_nat (num := Qc) (S k) = (nof_nat k + 1)%Qc.
Proof.
  apply Qc_is_canon. simpl. rewrite !Qred_correct.
  rewrite Nat2Z.inj_succ. unfold Z.succ. rewrite inject_Z_plus.
  reflexivity.
Qed.

Lemma nof_nat_nonzero_exact (n : nat) :
  1 <= n -> nof_nat (num := Qc) n <> 0%Qc.
Proof.
  intros Hn E. simpl in E. apply Q2Qc_eq_iff in E.
  unfold Qeq in E. simpl in E. lia.
Qed.

Lemma sum_constant_exact {A : Type} (x : Qc) (l : list A) (a : Qc) :
  List.fold_left Qcplus (List.map (fun _ => x) l) a =
  (a + nof_nat (List.length l) * x)%Qc.
Proof.
  revert a; induction l as [|y l IH]; intros a; simpl List.fold_left.
  - change (nof_nat (List.length (@nil A))) with (Q2Qc 0).
    now rewrite Qcmult_0_l, Qcplus_0_r.
  - rewrite IH. simpl List.length. rewrite nof_nat_succ_exact.
    rewrite Qcmult_plus_distr_l, Qcmult_1_l.
    rewrite <- Qcplus_assoc. f_equal. apply Qcplus_comm.
Qed.

Section Shares.
Context {num : Type} `{NumOps num}.

Lemma myShare_of_claimant (claims : list (Claim.t num)) (item : Item.t num)
      (u : User.t) :
  In (User.id u) (List.map Claim.user_id (itemClaimants claims item)) ->
  myShare claims (Some u) item =
  ndiv (Item.unit_price item) (nof_nat (splitCount claims item)).
Proof.
  intros Hin. apply existsb_user_id in Hin.
  unfold myShare. cbv zeta. rewrite getClaimants_itemClaimants.
  change (List.existsb
            (fun c => strictEq (Claim.user_id c)
                               (option_map User.id (Some u)))
            (itemClaimants claims item) = true) in Hin.
  rewrite Hin. reflexivity.
Qed.

Lemma claimants_without_repeats (claims : list (Claim.t num))
      (item : Item.t num) (users : list User.t) :
  List.NoDup (List.map Claim.user_id (itemClaimants claims item)) ->
  claimants_of claims item users ->
  List.map User.id users =
  List.map Claim.user_id (itemClaimants claims item).
Proof.
  unfold claimants_of, distinctClaimants.
  rewrite spec_claimants_itemClaimants. intros ND E. rewrite E.
  now apply List.nodup_fixed_point.
Qed.

Lemma shares_of_constant (claims : list (Claim.t num)) (item : Item.t num)
      (users : list User.t) :
  List.NoDup (List.map Claim.user_id (itemClaimants claims item)) ->
  claimants_of claims item users ->
  shares_of claims item users =
    List.map (fun _ => ndiv (Item.unit_price item)
                            (nof_nat (splitCount claims item))) users /\
  List.length users = splitCount claims item.
Proof.
  intros ND C.
  pose proof (claimants_without_repeats claims item users ND C) as E.
  split.
  - unfold shares_of. apply List.map_ext_in. intros u Hu.
    apply myShare_of_claimant. rewrite <- E. now apply List.in_map.
  - unfold splitCount.
    rewrite <- (List.length_map User.id users), E.
    apply List.length_map.
Qed.

End Shares.

(** C4 (amended): in exact arithmetic, for every item with at least one
    claim row and on which no user has two claim rows, the implicit shares
    [unit_price / split_count] of its claimants, one per distinct user,
    sum to the item's [unit_price].  In binary64, for the item of 90
    claimed by three distinct users each share is exactly 30 and the shares
    sum to exactly 90. *)
Theorem claimants_shares_sum (claims : list (Claim.t Qc)) (item : Item.t Qc)
        (users : list User.t) :
  1 <= splitCount claims item ->
  List.NoDup (List.map Claim.user_id (itemClaimants claims item)) ->
  claimants_of claims item users ->
  sum (shares_of claims item users) = Item.unit_price item /\
  (let claims3 : list (Claim.t float) := Sample.claims_of (Sample.guests 3) in
   let item3 : Item.t float := Sample.item "i1" 90 in
   claimants_of claims3 item3 (Sample.guests 3) /\
   List.NoDup (List.map User.id (Sample.guests 3)) /\
   shares_of claims3 item3 (Sample.guests 3) =
     [30%float; 30%float; 30%float] /\
   sum (shares_of claims3 item3 (Sample.guests 3)) = 90%float).
Proof.
  intros Hn ND C. split.
  - destruct (shares_of_constant claims item users ND C) as [E L].
    rewrite E. unfold sum.
    change (@nadd Qc exact_ops) with Qcplus.
    rewrite sum_constant_exact.
    change (@nzero Qc exact_ops) with (Q2Qc 0). rewrite Qcplus_0_l.
    rewrite L.
    change (@ndiv Qc exact_ops) with Qcdiv.
    apply Qcmult_div_r. now apply nof_nat_nonzero_exact.
  - cbv zeta. split; [|split; [|split]].
    + vm_compute. reflexivity.
    + vm_compute. repeat constructor; simpl; intuition discriminate.
    + vm_compute. reflexivity.
    + vm_compute. reflexivity.
Qed.

(** The witness of C4: 90 split between Alice and Bob, one row each, in
    exact arithmetic. *)
Lemma claimants_shares_sum_witness :
  sum (shares_of Sample.two_claims (Sample.steak (num := Qc))
                 [Sample.alice; Sample.bob]) =
  Item.unit_price (Sample.steak (num := Qc)).
Proof.
  refine (proj1 (claimants_shares_sum Sample.two_claims Sample.steak
                   [Sample.alice; Sample.bob] _ _ _)).
  - vm_compute. lia.
  - vm_compute. repeat constructor; simpl; intuition discriminate.
  - vm_compute. reflexivity.
Defined.

(** C4, as stated, fails in two ways.  In binary64, an item of 15 claimed
    by eleven distinct users has eleven shares of 15/11 whose sum, and whose
    product by the count, is 14.999999999999998.  In exact arithmetic, on
    an item of 90 with the rows Alice, Bob, Alice the divisor is 3 and the
    two claimants' shares are 30 and 30, which sum to 60. *)
Lemma claimants_shares_fall_short :
  (let claims : list (Claim.t float) := Sample.claims_of (Sample.guests 11) in
   let item : Item.t float := Sample.item "i1" 15 in
   let users := Sample.guests 11 in
   claimants_of claims item users /\
   List.NoDup (List.map Claim.user_id claims) /\
   splitCount claims item = 11 /\
   Item.unit_price item = 15%float /\
   sum (shares_of claims item users) = 14.999999999999998%float /\
   PrimFloat.eqb (sum (shares_of claims item users)) (Item.unit_price item)
     = false /\
   PrimFloat.eqb
     (PrimFloat.mul 11%float (myShare claims (Some Sample.claimant_A) item))
     (Item.unit_price item) = false /\
   sum (shares_of claims item users) <> Item.unit_price item) /\
  (let claims : list (Claim.t Qc) :=
     Sample.two_claims ++ [Sample.repeat_claim] in
   let item : Item.t Qc := Sample.steak in
   let users := [Sample.bob; Sample.alice] in
   claimants_of claims item users /\
   splitCount claims item = 3 /\
   List.map this (shares_of claims item users) = [30%Q; 30%Q] /\
   this (sum (shares_of claims item users)) = 60%Q /\
   this (Item.unit_price item) = 90%Q /\
   sum (shares_of claims item users) <> Item.unit_price item).
Proof.
  split; cbv zeta.
  - repeat split.
    + vm_compute. repeat constructor; simpl; intuition discriminate.
    + intros E.
      apply (f_equal (fun x => PrimFloat.eqb x 15%float)) in E.
      vm_compute in E. discriminate E.
  - split; [vm_compute; reflexivity|].
    split; [vm_compute; reflexivity|].
    split; [vm_compute; reflexivity|].
    split; [vm_compute; reflexivity|].
    split; [vm_compute; reflexivity|].
    intros E. apply (f_equal this) in E. vm_compute in E. discriminate E.
Qed.

(** ** Divisions *)

Section Divisions.
Context {num : Type} `{NumOps num}.
Implicit Types (items : list (Item.t num)) (claims : list (Claim.t num)).

Lemma forEach_body_guarded claims u acc (i : Item.t num) :
  Forall guarded (divisions acc) ->
  Forall guarded (divisions (forEach_body claims u acc i)).
Proof.
  intros G. unfold forEach_body.
  destruct (isMine claims u i) eqn:M; simpl; [|exact G].
  apply Forall_app. split; [exact G|].
  constructor; [|constructor]. simpl. now apply isMine_splitCount with u.
Qed.

Lemma fold_guarded claims u items acc :
  Forall guarded (divisions acc) ->
  Forall guarded (divisions (List.fold_left (forEach_body claims u) items acc)).
Proof.
  revert acc; induction items as [|i items IH]; intros acc G; simpl.
  - exact G.
  - apply IH. now apply forEach_body_guarded.
Qed.

Lemma fold_by_count claims u items acc :
  List.existsb is_by_subtotal (divisions acc) = false ->
  List.existsb is_by_subtotal
    (divisions (List.fold_left (forEach_body claims u) items acc)) = false.
Proof.
  revert acc; induction items as [|i items IH]; intros acc G; simpl.
  - exact G.
  - apply IH. unfold forEach_body.
    destruct (isMine claims u i); simpl; [|exact G].
    rewrite List.existsb_app, G. reflexivity.
Qed.

Lemma myTotals_run_guarded items claims (bill : option (Bill.t num))
      (user : option User.t) :
  Forall guarded (snd (myTotals_run items claims bill user)).
Proof.
  unfold myTotals_run.
  destruct user as [u|]; [|constructor].
  destruct bill as [b|]; [|constructor].
  set (acc := List.fold_left _ _ _).
  assert (G : Forall guarded (divisions acc)).
  { apply fold_guarded. constructor. }
  unfold ratio. destruct (ngtb (billSubtotal acc) nzero) eqn:P; simpl.
  - apply Forall_app. split; [exact G|].
    constructor; [exact P|constructor].
  - exact G.
Qed.

End Divisions.

Lemma positive_is_nonzero (b : float) :
  PrimFloat.ltb 0%float b = true -> b <> 0%float /\ b <> (-0)%float.
Proof.
  intros P. split; intros E; subst b; vm_compute in P; discriminate P.
Qed.

Lemma guarded_nonzero (d : Division float) : guarded d -> nonzero_divisor d.
Proof.
  destruct d as [n|b]; simpl; [tauto|].
  intros P. split; [exact P|]. now apply positive_is_nonzero.
Qed.

Lemma zero_prices_sum (items : list (Item.t float)) :
  Forall zero_price items ->
  List.fold_left PrimFloat.add (List.map Item.unit_price items) 0%float
  = 0%float.
Proof.
  induction 1 as [|i items Z _ IH]; simpl.
  - reflexivity.
  - destruct Z as [E|E]; rewrite E; exact IH.
Qed.

(** C5: the engine never divides by zero.  Every division it performs is
    either by an item's claim count, which is at least 1 because the division
    is made only when the user is among the item's claimants, or by the bill
    subtotal after the test [billSubtotal > 0] succeeded, so by a number
    that is neither [0] nor [-0]; when the test fails the ratio is [0] and no
    division is made; in particular when every price is zero the ratio is [0]
    and the bill subtotal is never a divisor. *)
Theorem myTotals_never_divides_by_zero (items : list (Item.t float))
        (claims : list (Claim.t float)) (b : Bill.t float) (u : User.t) :
  let acc := List.fold_left (forEach_body claims u) items
                            (mkAcc 0%float 0%float []) in
  (forall bill user,
     Forall nonzero_divisor (snd (myTotals_run items claims bill user))) /\
  (PrimFloat.ltb 0%float (billSubtotal acc) = false ->
   ratio acc = (0%float, divisions acc)) /\
  (PrimFloat.ltb 0%float (billSubtotal acc) = true ->
   ratio acc = (PrimFloat.div (mySubtotal acc) (billSubtotal acc),
                divisions acc ++ [DivBySubtotal (billSubtotal acc)])) /\
  (Forall zero_price items ->
   fst (ratio acc) = 0%float /\
   List.existsb is_by_subtotal
     (snd (myTotals_run items claims (Some b) (Some u))) = false) /\
  (forall item, isMine claims u item = true -> 1 <= splitCount claims item).
Proof.
  intros acc. split; [|split; [|split; [|split]]].
  - intros bill user.
    eapply Forall_impl; [|apply myTotals_run_guarded].
    exact guarded_nonzero.
  - intros P. unfold ratio. simpl ngtb. now rewrite P.
  - intros P. unfold ratio. simpl ngtb. now rewrite P.
  - intros Z.
    assert (B : billSubtotal acc = 0%float).
    { unfold acc. rewrite fold_billSubtotal. now apply zero_prices_sum. }
    assert (R : ratio acc = (0%float, divisions acc)).
    { unfold ratio. rewrite B. reflexivity. }
    split; [now rewrite R|].
    unfold myTotals_run. cbv zeta.
    change (List.fold_left (forEach_body claims u) items
              (mkAcc nzero nzero [])) with acc.
    rewrite R. simpl.
    unfold acc. now apply fold_by_count.
  - intros item M. now apply isMine_splitCount with u.
Qed.

(** The witness of C5: two free items, one of them claimed by Alice. *)
Lemma myTotals_never_divides_by_zero_witness :
  let items : list (Item.t float) :=
    [Sample.item "i1" 0; Sample.item "i2" 0] in
  let claims : list (Claim.t float) := [Sample.claim "c1" "i1" Sample.alice] in
  myTotals_run items claims (Some (Sample.bill 20 10)) (Some Sample.alice) =
  (mkTotals 0%float 0%float 0%float 0%float, [DivByCount 1]) /\
  List.existsb is_by_subtotal
    (snd (myTotals_run items claims (Some (Sample.bill 20 10))
                       (Some Sample.alice))) = false.
Proof.
  cbv zeta. split; [vm_compute; reflexivity|].
  apply (myTotals_never_divides_by_zero
           [Sample.item "i1" 0; Sample.item "i2" 0]
           [Sample.claim "c1" "i1" Sample.alice]
           (Sample.bill 20 10) Sample.alice).
  repeat constructor.
Defined.

(** ** The order of the items *)

Section Order.
Context {num : Type} `{NumOps num}.
Hypothesis nadd_assoc : forall a b c : num,
  nadd a (nadd b c) = nadd (nadd a b) c.
Hypothesis nadd_comm : forall a b : num, nadd a b = nadd b a.

Lemma fold_nadd_perm (l l' : list num) :
  Permutation l l' ->
  forall a, List.fold_left nadd l a = List.fold_left nadd l' a.
Proof.
  induction 1 as [|x l l' _ IH|x y l|l l' l'' _ IH1 _ IH2]; intros a; simpl.
  - reflexivity.
  - apply IH.
  - f_equal. rewrite <- !nadd_assoc. f_equal. apply nadd_comm.
  - now rewrite IH1, IH2.
Qed.

Lemma filter_perm {A : Type} (f : A -> bool) (l l' : list A) :
  Permutation l l' -> Permutation (List.filter f l) (List.filter f l').
Proof.
  induction 1 as [|x l l' _ IH|x y l|l l' l'' _ IH1 _ IH2]; simpl.
  - constructor.
  - destruct (f x); [now constructor|exact IH].
  - destruct (f x), (f y); try reflexivity. constructor.
  - now transitivity (List.filter f l').
Qed.

Lemma fold_forEach_perm claims u (items items' : list (Item.t num)) acc :
  Permutation items items' ->
  mySubtotal (List.fold_left (forEach_body claims u) items acc) =
  mySubtotal (List.fold_left (forEach_body claims u) items' acc) /\
  billSubtotal (List.fold_left (forEach_body claims u) items acc) =
  billSubtotal (List.fold_left (forEach_body claims u) items' acc).
Proof.
  intros P. rewrite !fold_mySubtotal, !fold_billSubtotal. split.
  - apply fold_nadd_perm. apply Permutation_map. now apply filter_perm.
  - apply fold_nadd_perm. now apply Permutation_map.
Qed.

(** C6 (amended): when the addition of the numbers is associative and
    commutative, as it is in exact arithmetic, the engine returns the same
    totals for every permutation of the items, with the claims, the bill and
    the user fixed. *)
Theorem myTotals_permutation (items items' : list (Item.t num))
        (claims : list (Claim.t num)) (bill : option (Bill.t num))
        (user : option User.t) :
  Permutation items items' ->
  myTotals items claims bill user = myTotals items' claims bill user.
Proof.
  intros P. unfold myTotals, myTotals_run.
  destruct user as [u|]; [|reflexivity].
  destruct bill as [b|]; [|reflexivity].
  destruct (fold_forEach_perm claims u items items' (mkAcc nzero nzero []) P)
    as [Em Eb].
  set (acc := List.fold_left _ items _) in *.
  set (acc' := List.fold_left _ items' _) in *.
  unfold ratio. rewrite <- Em, <- Eb.
  destruct (ngtb (billSubtotal acc) nzero); reflexivity.
Qed.

End Order.

(** The witness of C6: two items in both orders, in exact arithmetic. *)
Lemma myTotals_permutation_witness :
  let a : Item.t Qc := Sample.item "i1" 90 in
  let b : Item.t Qc := Sample.item "i2" 15 in
  myTotals [a; b] Sample.two_claims (Some (Sample.bill 20 10))
           (Some Sample.alice) =
  myTotals [b; a] Sample.two_claims (Some (Sample.bill 20 10))
           (Some Sample.alice).
Proof.
  intros a b.
  apply (@myTotals_permutation Qc exact_ops Qcplus_assoc Qcplus_comm
            [a; b] [b; a]).
  apply perm_swap.
Defined.

(** C6, as stated, fails in binary64: Alice claims three items priced 0.1,
    0.2 and 0.3; in this order her subtotal is 0.6000000000000001, in the
    reverse order it is 0.6. *)
Lemma myTotals_order_rounding :
  let b := Some (Sample.bill 20 10) in
  let u := Some Sample.alice in
  Permutation Sample.dimes (List.rev Sample.dimes) /\
  subtotal (myTotals Sample.dimes Sample.dimes_claims b u)
    = 0.6000000000000001%float /\
  subtotal (myTotals (List.rev Sample.dimes) Sample.dimes_claims b u)
    = 0.6%float /\
  PrimFloat.eqb
    (subtotal (myTotals Sample.dimes Sample.dimes_claims b u))
    (subtotal (myTotals (List.rev Sample.dimes) Sample.dimes_claims b u))
    = false /\
  myTotals Sample.dimes Sample.dimes_claims b u <>
  myTotals (List.rev Sample.dimes) Sample.dimes_claims b u.
Proof.
  cbv zeta. split; [apply Permutation_rev|].
  repeat split.
  intros E. apply (f_equal subtotal) in E.
  apply (f_equal (fun x => PrimFloat.eqb x 0.6%float)) in E.
  vm_compute in E. discriminate E.
Qed.

(** ** The stored identity *)

Lemma keys_differ : KEY_ID <> KEY_NAME.
Proof. unfold KEY_ID, KEY_NAME. intros E. discriminate E. Qed.

Lemma truthy_Some (s : string) : truthy (Some s) = true <-> s <> "".
Proof.
  unfold truthy. destruct (String.eqb_spec s ""); simpl.
  - split; [discriminate|contradiction].
  - split; [trivial|reflexivity].
Qed.

Lemma trim_empty : trim "" = "".
Proof. reflexivity. Qed.

Lemma trimmed_nonempty (s : string) : trim s <> "" -> s <> "".
Proof. intros T E. apply T. rewrite E. apply trim_empty. Qed.

Lemma resolveIdentity_stored (ls : localStorage) (i n : string) :
  getItem KEY_ID ls = Some i -> getItem KEY_NAME ls = Some n ->
  resolveIdentity ls =
  if truthy (Some i) && truthy (Some n) then Some (User.mk i n) else None.
Proof.
  intros Ei En. unfold resolveIdentity, useUser_effect.
  rewrite Ei, En. destruct (truthy (Some i) && truthy (Some n)); reflexivity.
Qed.

Lemma resolveIdentity_missing (ls : localStorage) :
  getItem KEY_ID ls = None \/ getItem KEY_NAME ls = None ->
  resolveIdentity ls = None.
Proof.
  unfold resolveIdentity, useUser_effect.
  intros [E|E]; rewrite E.
  - reflexivity.
  - destruct (getItem KEY_ID ls); reflexivity.
Qed.

(** C10: a reload resolves a user exactly when both stored strings are
    present and non-empty, and the user is made of these two strings; an
    empty stored id or name gives no user, as a missing key does. *)
Theorem resolveIdentity_spec (ls : localStorage) (u : User.t) :
  (resolveIdentity ls = Some u <->
   exists i n, getItem KEY_ID ls = Some i /\ getItem KEY_NAME ls = Some n /\
               i <> "" /\ n <> "" /\ u = User.mk i n) /\
  (getItem KEY_ID ls = Some "" \/ getItem KEY_NAME ls = Some "" ->
   resolveIdentity ls = None) /\
  (getItem KEY_ID ls = None \/ getItem KEY_NAME ls = None ->
   resolveIdentity ls = None).
Proof.
  split; [|split].
  - split.
    + intros R.
      destruct (getItem KEY_ID ls) as [i|] eqn:Ei;
        [|rewrite resolveIdentity_missing in R; [discriminate|now left]].
      destruct (getItem KEY_NAME ls) as [n|] eqn:En;
        [|rewrite resolveIdentity_missing in R; [discriminate|now right]].
      rewrite (resolveIdentity_stored ls i n Ei En) in R.
      destruct (truthy (Some i)) eqn:Ti; [|discriminate].
      destruct (truthy (Some n)) eqn:Tn; [|discriminate].
      simpl in R. injection R as <-.
      exists i, n. repeat split; now apply truthy_Some.
    + intros (i & n & Ei & En & Hi & Hn & ->).
      rewrite (resolveIdentity_stored ls i n Ei En).
      apply truthy_Some in Hi, Hn. now rewrite Hi, Hn.
  - intros [E|E].
    + destruct (getItem KEY_NAME ls) as [n|] eqn:En.
      * now rewrite (resolveIdentity_stored ls "" n E En).
      * apply resolveIdentity_missing. now right.
    + destruct (getItem KEY_ID ls) as [i|] eqn:Ei.
      * rewrite (resolveIdentity_stored ls i "" Ei E).
        now rewrite andb_false_r.
      * apply resolveIdentity_missing. now left.
  - apply resolveIdentity_missing.
Qed.

(** The witness of C10: a stored id with an empty stored name. *)
Lemma resolveIdentity_spec_witness :
  resolveIdentity (setItem KEY_NAME "" (setItem KEY_ID "id-1" ∅)) = None.
Proof.
  apply (proj1 (proj2 (resolveIdentity_spec
                         (setItem KEY_NAME "" (setItem KEY_ID "id-1" ∅))
                         Sample.alice))).
  right. vm_compute. reflexivity.
Defined.

(** C7: with a name that is not empty once trimmed, and the non-empty
    identifier [uuidv4()] returned, [registerUser] returns (sets) a user
    with this id and name, and a reload over the storage it wrote resolves a
    user with the same id and name. *)
Theorem register_then_resolve (ls : localStorage) (h : HookState)
        (newId name : string) :
  trim name <> "" ->
  newId <> "" ->
  user (snd (registerUser newId name (ls, h))) = Some (User.mk newId name) /\
  resolveIdentity (fst (registerUser newId name (ls, h))) =
  Some (User.mk newId name).
Proof.
  intros Hname Hid. apply trimmed_nonempty in Hname.
  simpl. split; [reflexivity|].
  rewrite (resolveIdentity_stored _ newId name).
  - apply truthy_Some in Hname, Hid. now rewrite Hname, Hid.
  - unfold getItem, setItem.
    rewrite lookup_insert_ne by (intros E; now apply keys_differ).
    apply lookup_insert_eq.
  - unfold getItem, setItem. apply lookup_insert_eq.
Qed.

(** The witness of C7: registering the name [" Al "] in an empty storage. *)
Lemma register_then_resolve_witness :
  resolveIdentity
    (fst (registerUser "3f0c9a2e-8f1b-4c55-9a40-2d6c1b7e5f10" " Al "
                       (∅, hook_init))) =
  Some (User.mk "3f0c9a2e-8f1b-4c55-9a40-2d6c1b7e5f10" " Al ").
Proof.
  apply (register_then_resolve ∅ hook_init
           "3f0c9a2e-8f1b-4c55-9a40-2d6c1b7e5f10" " Al ").
  - vm_compute. intros E. discriminate E.
  - intros E. discriminate E.
Defined.

(** ** Submitting a claim *)

Section Submit.
Context {num : Type}.
Implicit Types (w : World (num := num)).

Lemma handleClaim_no_url (apiUrl : option string) (net : FetchOutcome)
      (billId itemId : string) w (u : User.t) :
  user (hook w) = Some u ->
  truthy apiUrl = false ->
  handleClaim apiUrl net billId itemId w =
  (tt, w, [ConsoleError "API URL is not defined in .env.local" None]).
Proof.
  intros U T. unfold handleClaim.
  unfold mbind, Eff_bind, bind, get. rewrite U.
  destruct apiUrl as [url|]; [rewrite T|]; reflexivity.
Qed.

(** C8 (amended): when the base endpoint is not configured (undefined or
    empty) and the user is resolved, [handleClaim] returns at once: it makes
    no network call, shows no alert and changes no state; the only effect is
    one [console.error] line. *)
Theorem handleClaim_config_missing (apiUrl : option string)
        (net : FetchOutcome) (billId itemId : string) w (u : User.t) :
  user (hook w) = Some u ->
  truthy apiUrl = false ->
  events_of (handleClaim apiUrl net billId itemId w) =
    [ConsoleError "API URL is not defined in .env.local" None] /\
  List.existsb is_network_call
    (events_of (handleClaim apiUrl net billId itemId w)) = false /\
  List.existsb is_alert
    (events_of (handleClaim apiUrl net billId itemId w)) = false /\
  world_of (handleClaim apiUrl net billId itemId w) = w.
Proof.
  intros U T. rewrite (handleClaim_no_url apiUrl net billId itemId w u U T).
  repeat split.
Qed.






End Submit.

(** The witness of C8: Alice taps an item while no endpoint is configured. *)
Lemma handleClaim_config_missing_witness :
  events_of (handleClaim None Rejected "b1" "i1" Sample.world0) =
  [ConsoleError "API URL is not defined in .env.local" None].
Proof.
  apply (handleClaim_config_missing None Rejected "b1" "i1" Sample.world0
           Sample.alice); reflexivity.
Defined.

(** C8, as stated, fails: with a resolved user and no endpoint configured
    the call shows no alert. *)
Lemma handleClaim_config_no_alert :
  user (hook Sample.world0) = Some Sample.alice /\
  ~ (exists msg,
       In (Alert msg)
          (events_of (handleClaim None Rejected "b1" "i1" Sample.world0))).
Proof.
  split; [reflexivity|].
  intros (msg & [E|[]]). discriminate E.
Qed.

(** ** The specification's sample bills, in binary64 *)

(** An item of 90 claimed by three distinct users: each share is 30. *)
Example equal_split_of_90 :
  let claims : list (Claim.t float) := Sample.claims_of (Sample.guests 3) in
  myShare claims (Some Sample.claimant_A) (Sample.item "i1" 90) = 30%float /\
  splitCount claims (Sample.item "i1" 90) = 3.
Proof. split; reflexivity. Qed.

(** Two items of 100, Alice alone on the first, tax 20 and tip 10: ratio
    0.5, tax 10, tip 5, total 115. *)
Example tax_and_tip_dilution :
  myTotals [Sample.item "i1" 100; Sample.item "i2" 100]
           [Sample.claim "c1" "i1" Sample.alice]
           (Some (Sample.bill 20 10)) (Some Sample.alice) =
  mkTotals 100%float 10%float 5%float 115%float.
Proof. reflexivity. Qed.

(** Without a user the totals are zero whatever the items and claims. *)
Example no_user_no_totals (items : list (Item.t float))
        (claims : list (Claim.t float)) (bill : option (Bill.t float)) :
  myTotals items claims bill None = mkTotals 0%float 0%float 0%float 0%float.
Proof. reflexivity. Qed.

(** A non-2xx response and a rejected request both end in the alert. *)
Example handleClaim_failures_alert :
  List.existsb is_alert
    (events_of (handleClaim (Some "https://api.example") (Responded 500)
                            "b1" "i1" Sample.world0)) = true /\
  List.existsb is_alert
    (events_of (handleClaim (Some "https://api.example") Rejected
                            "b1" "i1" Sample.world0)) = true /\
  events_of (handleClaim (Some "https://api.example") (Responded 201)
                         "b1" "i1" Sample.world0) =
  [FetchPost "https://api.example/v1/bills/b1/claim"
             (mkBody "i1" "u-alice" "Alice")].
Proof. repeat split. Qed.

(** * Further properties of the page and of the hook *)

(** ** The engine and the rows it reads *)

Section EngineRows.
Context {num : Type} `{NumOps num}.
Implicit Types (items : list (Item.t num)) (claims : list (Claim.t num)).

Lemma fold_left_ext_in {A B : Type} (f g : A -> B -> A) (l : list B) :
  (forall a b, In b l -> f a b = g a b) ->
  forall a, List.fold_left f l a = List.fold_left g l a.
Proof.
  induction l as [|b l IH]; intros E a; simpl.
  - reflexivity.
  - rewrite (E a b) by now left.
    apply IH. intros a' b' Hin. apply E. now right.
Qed.

Lemma myTotals_run_ext items claims claims' (bill : option (Bill.t num))
      (user : option User.t) :
  (forall i, In i items -> itemClaimants claims i = itemClaimants claims' i) ->
  myTotals_run items claims bill user = myTotals_run items claims' bill user.
Proof.
  intros E. unfold myTotals_run.
  destruct user as [u|]; [|reflexivity].
  destruct bill as [b|]; [|reflexivity].
  rewrite (fold_left_ext_in (forEach_body claims u) (forEach_body claims' u)
             items); [reflexivity|].
  intros a i Hin. unfold forEach_body, isMine, splitCount.
  now rewrite (E i Hin).
Qed.

Lemma existsb_perm {A : Type} (f : A -> bool) (l l' : list A) :
  Permutation l l' -> List.existsb f l = List.existsb f l'.
Proof.
  induction 1 as [|x l l' _ IH|x y l|l l' l'' _ IH1 _ IH2]; simpl.
  - reflexivity.
  - now rewrite IH.
  - destruct (f x), (f y); reflexivity.
  - now rewrite IH1.
Qed.

(** X1: the order of the claim rows does not matter, exactly: for every
    permutation of the claims the engine returns the same totals and
    performs the same divisions, in binary64 as in any arithmetic. *)
Theorem myTotals_claims_order items claims claims'
        (bill : option (Bill.t num)) (user : option User.t) :
  Permutation claims claims' ->
  myTotals_run items claims bill user = myTotals_run items claims' bill user /\
  myTotals items claims bill user = myTotals items claims' bill user.
Proof.
  intros P.
  assert (E : myTotals_run items claims bill user =
              myTotals_run items claims' bill user).
  { unfold myTotals_run.
    destruct user as [u|]; [|reflexivity].
    destruct bill as [b|]; [|reflexivity].
    rewrite (fold_left_ext_body (forEach_body claims u)
               (forEach_body claims' u) items); [reflexivity|].
    intros a i. unfold forEach_body, isMine, splitCount.
    assert (Pi : Permutation (itemClaimants claims i)
                             (itemClaimants claims' i)).
    { unfold itemClaimants. now apply filter_perm. }
    rewrite (existsb_perm _ _ _ Pi).
    now rewrite (Permutation_length Pi). }
  split; [exact E|]. unfold myTotals. now rewrite E.
Qed.

Lemma itemClaimants_unlisted items (c : Claim.t num) (i : Item.t num) :
  on_listed_item items c = false -> In i items -> itemClaimants [c] i = [].
Proof.
  intros U Hin. unfold itemClaimants. simpl.
  destruct (String.eqb (Claim.item_id c) (Item.id i)) eqn:E; [|reflexivity].
  exfalso. unfold on_listed_item in U.
  assert (T : List.existsb
                (fun j => String.eqb (Claim.item_id c) (Item.id j)) items
              = true).
  { apply List.existsb_exists. now exists i. }
  rewrite T in U. discriminate U.
Qed.

Lemma itemClaimants_app claims claims' (i : Item.t num) :
  itemClaimants (claims ++ claims') i =
  itemClaimants claims i ++ itemClaimants claims' i.
Proof. unfold itemClaimants. apply List.filter_app. Qed.

Lemma itemClaimants_all_unlisted items (extra : list (Claim.t num))
      (i : Item.t num) :
  Forall (fun c => on_listed_item items c = false) extra ->
  In i items -> itemClaimants extra i = [].
Proof.
  intros F Hin. induction F as [|c extra U _ IH].
  - reflexivity.
  - change (c :: extra) with ([c] ++ extra).
    rewrite itemClaimants_app, IH.
    now rewrite (itemClaimants_unlisted items c i U Hin).
Qed.

(** X2: claim rows on items that are not in the list (rows of another
    bill, which the table-wide subscription also delivers) never change the
    totals: appending any such rows leaves totals and divisions as they
    were. *)
Theorem myTotals_ignores_unlisted items claims (extra : list (Claim.t num))
        (bill : option (Bill.t num)) (user : option User.t) :
  Forall (fun c => on_listed_item items c = false) extra ->
  myTotals_run items (claims ++ extra) bill user =
  myTotals_run items claims bill user /\
  myTotals items (claims ++ extra) bill user =
  myTotals items claims bill user.
Proof.
  intros F.
  assert (E : myTotals_run items (claims ++ extra) bill user =
              myTotals_run items claims bill user).
  { apply myTotals_run_ext. intros i Hin.
    rewrite itemClaimants_app.
    rewrite (itemClaimants_all_unlisted items extra i F Hin).
    apply List.app_nil_r. }
  split; [exact E|]. unfold myTotals. now rewrite E.
Qed.

Lemma not_mine_without_rows claims (u : User.t) (i : Item.t num) :
  Forall (fun c => Claim.user_id c <> User.id u) claims ->
  isMine claims u i = false.
Proof.
  intros F. unfold isMine, itemClaimants.
  induction F as [|c claims N _ IH]; simpl.
  - reflexivity.
  - destruct (String.eqb (Claim.item_id c) (Item.id i)); [|exact IH].
    simpl. rewrite IH.
    apply String.eqb_neq in N. now rewrite N.
Qed.

Lemma fold_not_mine claims (u : User.t) items (acc : Acc) :
  (forall i, isMine claims u i = false) ->
  mySubtotal (List.fold_left (forEach_body claims u) items acc)
    = mySubtotal acc /\
  divisions (List.fold_left (forEach_body claims u) items acc)
    = divisions acc.
Proof.
  intros N. revert acc. induction items as [|i items IH]; intros acc; simpl.
  - split; reflexivity.
  - destruct (IH (forEach_body claims u acc i)) as [Em Ed].
    rewrite Em, Ed. unfold forEach_body. rewrite (N i). split; reflexivity.
Qed.

(** X3: a user who has no claim row gets the subtotal [0] whatever the
    items and the bill, and the engine makes no division by a claim count
    for that user. *)
Theorem myTotals_without_rows items claims (bill : option (Bill.t num))
        (u : User.t) :
  Forall (fun c => Claim.user_id c <> User.id u) claims ->
  subtotal (myTotals items claims bill (Some u)) = nzero /\
  List.forallb is_by_subtotal
    (snd (myTotals_run items claims bill (Some u))) = true.
Proof.
  intros F. unfold myTotals, myTotals_run.
  destruct bill as [b|]; [|split; reflexivity].
  destruct (fold_not_mine claims u items (mkAcc nzero nzero [])
              (fun i => not_mine_without_rows claims u i F)) as [Em Ed].
  set (acc := List.fold_left _ _ _) in *.
  unfold ratio. rewrite Ed.
  destruct (ngtb (billSubtotal acc) nzero); simpl; rewrite Em;
    split; reflexivity.
Qed.



Lemma existsb_never {A : Type} (l : list A) :
  List.existsb (fun _ => false) l = false.
Proof. induction l; simpl; auto. Qed.

(** X5: while no user is resolved (a guest), no row is highlighted, every
    row displays the item's full price, the guest's share of every item is
    [0], the button counts no item and the totals are all [0]. *)
Theorem guest_sees_full_prices items claims (bill : option (Bill.t num))
        (i : Item.t num) :
  rowIsMine claims None i = false /\
  displayPrice claims None i = Item.unit_price i /\
  myShare claims None i = nzero /\
  myItemsCount claims None = 0 /\
  myTotals items claims bill None = mkTotals nzero nzero nzero nzero.
Proof.
  assert (R : rowIsMine claims None i = false).
  { unfold rowIsMine. simpl. apply existsb_never. }
  split; [exact R|]. split; [|split; [|split]].
  - unfold displayPrice. fold (rowIsMine claims None i). now rewrite R.
  - unfold myShare. fold (rowIsMine claims None i). now rewrite R.
  - unfold myItemsCount. simpl. clear R.
    induction claims as [|c claims IH]; simpl; auto.
  - reflexivity.
Qed.

End EngineRows.

(** ** The count on the summary button *)

Section ItemsCount.
Context {num : Type} `{NumOps num}.
Implicit Types (items : list (Item.t num)) (claims : list (Claim.t num)).

Lemma existsb_filter_length {A : Type} (p q : A -> bool) (l : list A) :
  List.existsb p (List.filter q l) = true ->
  1 <= List.length (List.filter (fun x => p x && q x) l).
Proof.
  induction l as [|x l IH]; simpl.
  - discriminate.
  - destruct (q x) eqn:Q; simpl.
    + destruct (p x); simpl; [intros _; lia|].
      rewrite ?andb_true_r. exact IH.
    + rewrite andb_false_r. exact IH.
Qed.

Lemma filter_disjoint_length {A : Type} (p q : A -> bool) (l : list A) :
  (forall x, p x = true -> q x = false) ->
  List.length (List.filter (fun x => p x || q x) l) =
  List.length (List.filter p l) + List.length (List.filter q l).
Proof.
  intros D. induction l as [|x l IH]; simpl.
  - reflexivity.
  - destruct (p x) eqn:Px; simpl.
    + rewrite (D x Px). simpl. now rewrite IH.
    + destruct (q x); simpl; rewrite IH; lia.
Qed.

Lemma filter_and_length {A : Type} (p q : A -> bool) (l : list A) :
  List.length (List.filter (fun x => p x && q x) l) <=
  List.length (List.filter p l).
Proof.
  induction l as [|x l IH]; simpl.
  - lia.
  - destruct (p x), (q x); simpl; lia.
Qed.

Lemma listed_has_id items (c : Claim.t num) :
  on_listed_item items c = true ->
  In (Claim.item_id c) (List.map Item.id items).
Proof.
  unfold on_listed_item. intros E.
  apply List.existsb_exists in E. destruct E as (j & Hin & Ej).
  apply String.eqb_eq in Ej. rewrite Ej. now apply List.in_map.
Qed.

Lemma highlighted_le_listed_rows items claims (user : option User.t) :
  List.NoDup (List.map Item.id items) ->
  List.length (List.filter (rowIsMine claims user) items) <=
  List.length
    (List.filter
       (fun c => strictEq (Claim.user_id c) (option_map User.id user)
                 && on_listed_item items c)
       claims).
Proof.
  set (P := fun c : Claim.t num =>
              strictEq (Claim.user_id c) (option_map User.id user)).
  induction items as [|i items IH]; intros ND; simpl List.filter at 1.
  - simpl. lia.
  - inversion ND as [|x l Hnot ND' Ex]; subst.
    specialize (IH ND').
    rewrite (List.filter_ext
               (fun c => P c && on_listed_item (i :: items) c)
               (fun c => (P c && String.eqb (Claim.item_id c) (Item.id i))
                         || (P c && on_listed_item items c)))
      by (intros c; unfold on_listed_item; simpl;
          now rewrite andb_orb_distrib_r).
    rewrite filter_disjoint_length.
    + unfold P in *. cbv beta in *.
      destruct (rowIsMine claims user i) eqn:M; simpl List.length; [|lia].
      unfold rowIsMine, getClaimants in M.
      apply existsb_filter_length in M. cbv beta in M. lia.
    + intros c E. apply andb_true_iff in E. destruct E as [_ E].
      apply String.eqb_eq in E.
      destruct (on_listed_item items c) eqn:L;
        [|now rewrite andb_false_r].
      exfalso. apply Hnot. rewrite <- E. now apply listed_has_id.
Qed.

(** X6: when the items have distinct ids, the count shown on the summary
    button (the user's claim rows) is never smaller than the number of rows
    the item list highlights for the user. *)
Theorem button_count_covers_highlights items claims (user : option User.t) :
  List.NoDup (List.map Item.id items) ->
  List.length (List.filter (rowIsMine claims user) items) <=
  myItemsCount claims user.
Proof.
  intros ND. etransitivity.
  - now apply highlighted_le_listed_rows.
  - unfold myItemsCount. apply filter_and_length.
Qed.

End ItemsCount.

(** The witness of X1: Alice's and Bob's rows in both orders. *)
Lemma myTotals_claims_order_witness :
  myTotals [Sample.steak] Sample.two_claims (Some (Sample.bill 20 10))
           (Some Sample.alice) =
  myTotals (num := float) [Sample.steak]
           [Sample.claim "c2" "i1" Sample.bob;
            Sample.claim "c1" "i1" Sample.alice]
           (Some (Sample.bill 20 10)) (Some Sample.alice).
Proof.
  apply (myTotals_claims_order [Sample.steak] Sample.two_claims
           [Sample.claim "c2" "i1" Sample.bob;
            Sample.claim "c1" "i1" Sample.alice]).
  apply perm_swap.
Defined.

(** The witness of X2: a row of another bill next to the three rows. *)
Lemma myTotals_ignores_unlisted_witness :
  myTotals (num := float) Demo.menu (Demo.rows ++ [Demo.stray])
           (Some (Sample.bill 20 10)) (Some Sample.alice) =
  myTotals Demo.menu Demo.rows (Some (Sample.bill 20 10)) (Some Sample.alice).
Proof.
  apply (myTotals_ignores_unlisted Demo.menu Demo.rows [Demo.stray]).
  repeat constructor.
Defined.

(** The witness of X3: a third user on Alice's and Bob's bill. *)
Lemma myTotals_without_rows_witness :
  subtotal (myTotals (num := float) Demo.menu Demo.rows
                     (Some (Sample.bill 20 10))
                     (Some Sample.claimant_A)) = 0%float /\
  List.forallb is_by_subtotal
    (snd (myTotals_run (num := float) Demo.menu Demo.rows
                       (Some (Sample.bill 20 10))
                       (Some Sample.claimant_A))) = true.
Proof.
  apply (@myTotals_without_rows float float_ops Demo.menu Demo.rows
            (Some (Sample.bill 20 10)) Sample.claimant_A).
  repeat constructor; intros E; discriminate E.
Defined.

(** The witness of X6: Bob has two rows and two highlighted items. *)
Lemma button_count_covers_highlights_witness :
  List.length (List.filter (rowIsMine (num := float) Demo.rows
                                      (Some Sample.bob)) Demo.menu) <=
  myItemsCount (num := float) Demo.rows (Some Sample.bob).
Proof.
  apply (button_count_covers_highlights Demo.menu Demo.rows
           (Some Sample.bob)).
  repeat constructor; simpl; intuition discriminate.
Defined.

(** ** The stored identity, continued *)

Lemma registerUser_storage (ls : localStorage) (h : HookState)
      (newId name : string) :
  fst (registerUser newId name (ls, h)) =
  setItem KEY_NAME name (setItem KEY_ID newId ls).
Proof. reflexivity. Qed.

(** X7: a second registration replaces the first entirely: the storage is
    the one a single registration of the second identity would have written,
    and with a non-empty id and name a reload resolves the second user. *)
Theorem registerUser_overwrites (ls : localStorage) (h : HookState)
        (id1 name1 id2 name2 : string) :
  id2 <> "" -> name2 <> "" ->
  fst (registerUser id2 name2 (registerUser id1 name1 (ls, h))) =
    fst (registerUser id2 name2 (ls, h)) /\
  resolveIdentity
    (fst (registerUser id2 name2 (registerUser id1 name1 (ls, h)))) =
    Some (User.mk id2 name2) /\
  user (snd (registerUser id2 name2 (registerUser id1 name1 (ls, h)))) =
    Some (User.mk id2 name2).
Proof.
  intros Hid Hname.
  assert (E : fst (registerUser id2 name2 (registerUser id1 name1 (ls, h))) =
              fst (registerUser id2 name2 (ls, h))).
  { simpl. unfold setItem. apply map_eq. intros k.
    destruct (decide (k = KEY_NAME)) as [->|Nn].
    - now rewrite !lookup_insert_eq.
    - rewrite !(lookup_insert_ne _ KEY_NAME) by congruence.
      destruct (decide (k = KEY_ID)) as [->|Ni].
      + now rewrite !lookup_insert_eq.
      + now rewrite !lookup_insert_ne by congruence. }
  split; [exact E|]. split; [|reflexivity].
  rewrite E, registerUser_storage.
  rewrite (resolveIdentity_stored _ id2 name2).
  - apply truthy_Some in Hid, Hname. now rewrite Hid, Hname.
  - unfold getItem, setItem.
    rewrite lookup_insert_ne by (intros K; now apply keys_differ).
    apply lookup_insert_eq.
  - unfold getItem, setItem. apply lookup_insert_eq.
Qed.

(** The witness of X7: Bob registers on the browser Alice used. *)
Lemma registerUser_overwrites_witness :
  resolveIdentity
    (fst (registerUser "id-2" "Bob"
            (registerUser "id-1" "Alice" (∅, hook_init)))) =
  Some (User.mk "id-2" "Bob").
Proof.
  apply (registerUser_overwrites ∅ hook_init "id-1" "Alice" "id-2" "Bob");
    intros E; discriminate E.
Defined.

(** X8: the identity lives under its two keys only: a registration leaves
    every other key of the storage as it was, and writing any other key
    does not change the identity a reload resolves. *)
Theorem identity_keys_isolated (ls : localStorage) (h : HookState)
        (newId name k v : string) :
  k <> KEY_ID -> k <> KEY_NAME ->
  getItem k (fst (registerUser newId name (ls, h))) = getItem k ls /\
  resolveIdentity (setItem k v ls) = resolveIdentity ls.
Proof.
  intros Ni Nn. split.
  - rewrite registerUser_storage. unfold getItem, setItem.
    now rewrite !lookup_insert_ne by congruence.
  - unfold resolveIdentity, useUser_effect, getItem, setItem.
    now rewrite !lookup_insert_ne by congruence.
Qed.

(** The witness of X8: a theme preference next to the identity. *)
Lemma identity_keys_isolated_witness :
  resolveIdentity
    (setItem "theme" "dark"
       (fst (registerUser "id-1" "Alice" (∅, hook_init)))) =
  resolveIdentity (fst (registerUser "id-1" "Alice" (∅, hook_init))).
Proof.
  apply (identity_keys_isolated
           (fst (registerUser "id-1" "Alice" (∅, hook_init)))
           hook_init "id-1" "Alice" "theme" "dark");
    intros E; discriminate E.
Defined.

(** X9: [registerUser] does not validate the name: with the empty name it
    still sets a user in the hook and writes the storage, but a reload
    resolves no user from what it wrote. *)
Theorem registerUser_empty_name (ls : localStorage) (h : HookState)
        (newId : string) :
  user (snd (registerUser newId "" (ls, h))) = Some (User.mk newId "") /\
  getItem KEY_ID (fst (registerUser newId "" (ls, h))) = Some newId /\
  resolveIdentity (fst (registerUser newId "" (ls, h))) = None.
Proof.
  split; [reflexivity|].
  assert (Ei : getItem KEY_ID (fst (registerUser newId "" (ls, h)))
               = Some newId).
  { rewrite registerUser_storage. unfold getItem, setItem.
    rewrite lookup_insert_ne by (intros K; now apply keys_differ).
    apply lookup_insert_eq. }
  split; [exact Ei|].
  rewrite (resolveIdentity_stored _ newId "" Ei).
  - now rewrite andb_false_r.
  - rewrite registerUser_storage. unfold getItem, setItem.
    apply lookup_insert_eq.
Qed.

(** ** The Join button *)

Section Join.
Context {num : Type}.
Implicit Types (w : World (num := num)).

(** X10: the Join button does nothing while the typed name is empty once
    trimmed, and nothing once a user is resolved (the modal is gone): the
    state is unchanged and nothing is written. *)
Theorem joinClick_blocked (newId : string) w :
  trim (inputName w) = "" \/ user (hook w) <> None ->
  joinClick newId w = (tt, w, []).
Proof.
  intros [T|U]; unfold joinClick.
  - unfold joinDisabled. rewrite T. simpl.
    now rewrite andb_false_r.
  - unfold modalVisible. destruct (user (hook w)); [reflexivity|].
    now contradiction U.
Qed.

(** X11: on a page without a user, a click on Join with a name that is not
    empty once trimmed registers the name as typed (not trimmed) under the
    fresh id: the hook holds this user, a reload resolves the same user, the
    modal closes, a further click changes nothing, and the items, the
    claims and the bill are untouched. *)
Theorem joinClick_registers (newId : string) w :
  user (hook w) = None ->
  trim (inputName w) <> "" ->
  newId <> "" ->
  let w' := world_of (joinClick newId w) in
  user (hook w') = Some (User.mk newId (inputName w)) /\
  resolveIdentity (storage w') = Some (User.mk newId (inputName w)) /\
  modalVisible w' = false /\
  (forall otherId, joinClick otherId w' = (tt, w', [])) /\
  items w' = items w /\ claims w' = claims w /\ bill w' = bill w.
Proof.
  intros U T Hid.
  assert (V : modalVisible w && negb (joinDisabled w) = true).
  { unfold modalVisible, joinDisabled. rewrite U. simpl.
    apply String.eqb_neq in T. now rewrite T. }
  unfold joinClick. rewrite V.
  unfold page_registerUser, world_of. simpl.
  pose proof (trimmed_nonempty _ T) as Hname.
  split; [reflexivity|]. split; [|split; [reflexivity|split]].
  - rewrite (resolveIdentity_stored _ newId (inputName w)).
    + apply truthy_Some in Hname, Hid. now rewrite Hname, Hid.
    + unfold getItem, setItem.
      rewrite lookup_insert_ne by (intros K; now apply keys_differ).
      apply lookup_insert_eq.
    + unfold getItem, setItem. apply lookup_insert_eq.
  - intros otherId. unfold modalVisible. simpl. reflexivity.
  - repeat split.
Qed.

End Join.

(** The witness of X10: only blanks are typed. *)
Lemma joinClick_blocked_witness :
  joinClick "id-1" (Demo.typing "   ") = (tt, Demo.typing "   ", []).
Proof.
  apply (joinClick_blocked "id-1" (Demo.typing "   ")).
  left. reflexivity.
Defined.

(** The witness of X11: [" Al "] is typed and stored with its blanks. *)
Lemma joinClick_registers_witness :
  resolveIdentity (storage (world_of (joinClick "id-1" (Demo.typing " Al "))))
  = Some (User.mk "id-1" " Al ").
Proof.
  apply (joinClick_registers "id-1" (Demo.typing " Al ")).
  - reflexivity.
  - vm_compute. intros E. discriminate E.
  - intros E. discriminate E.
Defined.

(** ** Submitting a claim, continued *)

Section SubmitMore.
Context {num : Type}.
Implicit Types (w : World (num := num)).

Lemma handleClaim_sent (url : string) (net : FetchOutcome)
      (billId itemId : string) w (u : User.t) :
  user (hook w) = Some u ->
  url <> "" ->
  handleClaim (Some url) net billId itemId w =
  (tt, w,
   FetchPost (url ++ "/v1/bills/" ++ billId ++ "/claim")
             (mkBody itemId (User.id u) (User.name u)) ::
   match net with
   | Responded status =>
       if response_ok status then []
       else [ConsoleError "Network Error:" (Some (ServerError status));
             Alert
               "Could not connect to server. Check if backend/ngrok is running."]
   | Rejected =>
       [ConsoleError "Network Error:" (Some TransportError);
        Alert
          "Could not connect to server. Check if backend/ngrok is running."]
   end).
Proof.
  intros U N. unfold handleClaim, mbind, Eff_bind, bind, get. rewrite U.
  apply truthy_Some in N. rewrite N.
  destruct net as [status|]; [|reflexivity].
  simpl. destruct (response_ok status); reflexivity.
Qed.

Lemma handleClaim_guest (apiUrl : option string) (net : FetchOutcome)
      (billId itemId : string) w :
  user (hook w) = None ->
  handleClaim apiUrl net billId itemId w = (tt, w, []).
Proof.
  intros U. unfold handleClaim, mbind, Eff_bind, bind, get.
  now rewrite U.
Qed.

(** X12: a click on an item by a guest does nothing at all: whatever the
    configuration and the network, no request is sent, nothing is logged,
    no alert is shown and the state is unchanged. *)
Theorem itemClick_guest_silent (apiUrl : option string) (net : FetchOutcome)
        (billId : string) (item : Item.t num) w :
  user (hook w) = None ->
  itemClick apiUrl net billId item w = (tt, w, []).
Proof. intros U. unfold itemClick. now apply handleClaim_guest. Qed.

(** X13: with a resolved user and a configured endpoint, a click on an item
    sends exactly one request, first of all effects, to
    [<apiUrl>/v1/bills/<billId>/claim] with the clicked item's id and the
    user's id and name; whatever the outcome no second request follows. *)
Theorem itemClick_one_request (url : string) (net : FetchOutcome)
        (billId : string) (item : Item.t num) w (u : User.t) :
  user (hook w) = Some u ->
  url <> "" ->
  exists rest,
    events_of (itemClick (Some url) net billId item w) =
      FetchPost (url ++ "/v1/bills/" ++ billId ++ "/claim")
                (mkBody (Item.id item) (User.id u) (User.name u)) :: rest /\
    List.existsb is_network_call rest = false /\
    List.length rest <= 2.
Proof.
  intros U N. unfold itemClick.
  rewrite (handleClaim_sent url net billId (Item.id item) w u U N).
  eexists. split; [reflexivity|].
  destruct net as [status|]; [destruct (response_ok status)|];
    simpl; split; (reflexivity || lia).
Qed.

(** X14: [handleClaim] shows its alert exactly when a user is resolved, the
    endpoint is configured and the request failed (a status outside 200-299
    or a rejected request); in every other case no alert is shown. *)
Theorem handleClaim_alert_iff (apiUrl : option string) (net : FetchOutcome)
        (billId itemId : string) w :
  List.existsb is_alert (events_of (handleClaim apiUrl net billId itemId w))
    = true <->
  user (hook w) <> None /\ truthy apiUrl = true /\
  match net with
  | Responded status => response_ok status = false
  | Rejected => True
  end.
Proof.
  destruct (user (hook w)) as [u|] eqn:U.
  - destruct (truthy apiUrl) eqn:T.
    + destruct apiUrl as [url|]; [|discriminate T].
      apply truthy_Some in T.
      rewrite (handleClaim_sent url net billId itemId w u U T).
      destruct net as [status|]; [destruct (response_ok status)|]; simpl.
      * split; [discriminate|]. intros (_ & _ & F). discriminate F.
      * split; [|reflexivity]. intros _. repeat split. discriminate.
      * split; [|reflexivity]. intros _. repeat split. discriminate.
    + rewrite (handleClaim_no_url apiUrl net billId itemId w u U T). simpl.
      split; [discriminate|]. intros (_ & F & _). discriminate F.
  - rewrite (handleClaim_guest apiUrl net billId itemId w U). simpl.
    split; [discriminate|]. intros (F & _). now contradiction F.
Qed.

(** X15: the user cannot tell a server error from a transport failure: for
    every status outside 200-299 the alerts shown are those shown for a
    rejected request, and they do not depend on the status. *)
Theorem handleClaim_failures_look_alike (apiUrl : option string)
        (status status' : nat) (billId itemId : string) w :
  response_ok status = false ->
  response_ok status' = false ->
  List.filter is_alert
    (events_of (handleClaim apiUrl (Responded status) billId itemId w)) =
  List.filter is_alert
    (events_of (handleClaim apiUrl Rejected billId itemId w)) /\
  List.filter is_alert
    (events_of (handleClaim apiUrl (Responded status) billId itemId w)) =
  List.filter is_alert
    (events_of (handleClaim apiUrl (Responded status') billId itemId w)).
Proof.
  intros S S'.
  destruct (user (hook w)) as [u|] eqn:U.
  - destruct (truthy apiUrl) eqn:T.
    + destruct apiUrl as [url|]; [|discriminate T].
      apply truthy_Some in T.
      rewrite !(handleClaim_sent url _ billId itemId w u U T).
      rewrite S, S'. split; reflexivity.
    + rewrite !(handleClaim_no_url apiUrl _ billId itemId w u U T).
      split; reflexivity.
  - rewrite !(handleClaim_guest apiUrl _ billId itemId w U).
    split; reflexivity.
Qed.

(** ** The refetch and the realtime callback *)

(** X16: a refetch replaces exactly the parts it could read and keeps the
    stale value of every part whose read returned no data; the refetch and
    the realtime callback show nothing to the user, and never touch the
    hook, the storage, the typed name or the summary flag. *)
Theorem refresh_keeps_unread_parts (r : Reads) (payload : Payload) w :
  let w' := world_of (fetchData r w) in
  let w'' := world_of (onClaimsChange payload r w) in
  bill w' = match billData r with Some b => Some b | None => bill w end /\
  items w' = match itemsData r with Some l => l | None => items w end /\
  claims w' = match claimsData r with Some l => l | None => claims w end /\
  events_of (fetchData r w) = [] /\
  events_of (onClaimsChange payload r w) = [] /\
  (hook w', storage w', inputName w', showSummary w') =
    (hook w, storage w, inputName w, showSummary w) /\
  (hook w'', storage w'', inputName w'', showSummary w'') =
    (hook w, storage w, inputName w, showSummary w) /\
  bill w'' = bill w' /\ items w'' = items w'.
Proof.
  destruct r as [bd idata cd].
  destruct bd, idata, cd, payload; cbv zeta; repeat split.
Qed.

Lemma insert_unread_claims (c : Claim.t num) (bd : option (Bill.t num))
      (idata : option (list (Item.t num))) w :
  claims (world_of (onClaimsChange (INSERT c) (mkReads bd idata None) w)) =
  claims w ++ [c].
Proof. destruct bd, idata; reflexivity. Qed.

Lemma delete_unread_claims (old_id : string) (bd : option (Bill.t num))
      (idata : option (list (Item.t num))) w :
  claims (world_of (onClaimsChange (DELETE old_id) (mkReads bd idata None) w))
  = List.filter (fun c => negb (String.eqb (Claim.id c) old_id)) (claims w).
Proof. destruct bd, idata; reflexivity. Qed.

End SubmitMore.

Section Notifications.
Context {num : Type} `{NumOps num}.
Implicit Types (w : World (num := num)).

Lemma filter_filter_length {A : Type} (p q : A -> bool) (l : list A) :
  List.length (List.filter p (List.filter q l)) <=
  List.length (List.filter p l).
Proof.
  induction l as [|x l IH]; simpl; [lia|].
  destruct (q x); simpl; destruct (p x); simpl; lia.
Qed.

Lemma filter_other_ids (old_id : string) (l : list (Claim.t num)) :
  Forall (fun c => Claim.id c <> old_id) l ->
  List.filter (fun c => negb (String.eqb (Claim.id c) old_id)) l = l.
Proof.
  induction 1 as [|c l N _ IH]; simpl; [reflexivity|].
  apply String.eqb_neq in N. rewrite N. simpl. now rewrite IH.
Qed.

(** X17: an INSERT notification is appended without looking at the rows
    already held: when the refetch then reads no claims, the row is in the
    snapshot once more, also if it was there already, and the divisor of its
    item is one larger. *)
Theorem insert_notification_dilutes (c : Claim.t num) (item : Item.t num)
        (bd : option (Bill.t num)) (idata : option (list (Item.t num))) w :
  Claim.item_id c = Item.id item ->
  let w' := world_of (onClaimsChange (INSERT c) (mkReads bd idata None) w) in
  claims w' = claims w ++ [c] /\
  List.length (List.filter (fun c' => String.eqb (Claim.id c') (Claim.id c))
                           (claims w')) =
    S (List.length
         (List.filter (fun c' => String.eqb (Claim.id c') (Claim.id c))
                      (claims w))) /\
  splitCount (claims w') item = S (splitCount (claims w) item).
Proof.
  intros E w'.
  assert (A : claims w' = claims w ++ [c]) by apply insert_unread_claims.
  split; [exact A|]. rewrite A. split.
  - rewrite List.filter_app, List.length_app. simpl.
    rewrite String.eqb_refl. simpl. lia.
  - rewrite splitCount_app, (splitCount_single c item E). lia.
Qed.

(** X18: a DELETE notification whose refetch reads no claims removes every
    row with the deleted id and no other row, so no divisor grows; when no
    row has that id the claims are unchanged. *)
Theorem delete_notification_removes (old_id : string) (item : Item.t num)
        (bd : option (Bill.t num)) (idata : option (list (Item.t num))) w :
  let w' :=
    world_of (onClaimsChange (DELETE old_id) (mkReads bd idata None) w) in
  (forall c, In c (claims w') <->
             In c (claims w) /\ Claim.id c <> old_id) /\
  splitCount (claims w') item <= splitCount (claims w) item /\
  (Forall (fun c => Claim.id c <> old_id) (claims w) ->
   claims w' = claims w).
Proof.
  intros w'.
  assert (A : claims w' =
              List.filter (fun c => negb (String.eqb (Claim.id c) old_id))
                          (claims w)) by apply delete_unread_claims.
  rewrite A. split; [|split].
  - intros c. rewrite List.filter_In, negb_true_iff, String.eqb_neq.
    reflexivity.
  - unfold splitCount, itemClaimants. apply filter_filter_length.
  - apply filter_other_ids.
Qed.

End Notifications.

(** The witness of X12: a guest taps an item. *)
Lemma itemClick_guest_silent_witness :
  itemClick (Some "https://api.example") Rejected "b1"
            (Sample.item "i1" 90) (Demo.typing "") =
  (tt, Demo.typing "", []).
Proof.
  apply (itemClick_guest_silent (Some "https://api.example") Rejected "b1"
           (Sample.item "i1" 90) (Demo.typing "")).
  reflexivity.
Defined.

(** The witness of X13: Alice taps the first item and the server refuses. *)
Lemma itemClick_one_request_witness :
  exists rest,
    events_of (itemClick (Some "https://api.example") (Responded 500) "b1"
                         (Sample.item "i1" 90) Demo.loaded) =
      FetchPost "https://api.example/v1/bills/b1/claim"
                (mkBody "i1" "u-alice" "Alice") :: rest /\
    List.existsb is_network_call rest = false /\
    List.length rest <= 2.
Proof.
  apply (itemClick_one_request "https://api.example" (Responded 500) "b1"
           (Sample.item "i1" 90) Demo.loaded Sample.alice).
  - reflexivity.
  - intros E. discriminate E.
Defined.

(** The witness of X15: a 404 and a 500 against a rejected request. *)
Lemma handleClaim_failures_look_alike_witness :
  List.filter is_alert
    (events_of (handleClaim (Some "https://api.example") (Responded 404)
                            "b1" "i1" Demo.loaded)) =
  List.filter is_alert
    (events_of (handleClaim (Some "https://api.example") Rejected
                            "b1" "i1" Demo.loaded)).
Proof.
  apply (handleClaim_failures_look_alike (Some "https://api.example")
           404 500 "b1" "i1" Demo.loaded); reflexivity.
Defined.

(** The witness of X17: the row Alice already has arrives once more. *)
Lemma insert_notification_dilutes_witness :
  splitCount
    (claims (world_of (onClaimsChange
                         (INSERT (Sample.claim "c1" "i1" Sample.alice))
                         (mkReads None None None) Demo.loaded)))
    (Sample.item "i1" 90) = 3.
Proof.
  apply (insert_notification_dilutes (Sample.claim "c1" "i1" Sample.alice)
           (Sample.item "i1" 90) None None Demo.loaded).
  reflexivity.
Defined.

(** The witness of X18: a notification for a row the page never had. *)
Lemma delete_notification_removes_witness :
  claims (world_of (onClaimsChange (DELETE "c7") (mkReads None None None)
                                   Demo.loaded)) =
  claims Demo.loaded.
Proof.
  apply (delete_notification_removes "c7" (Sample.item "i1" 90) None None
           Demo.loaded).
  repeat constructor; intros E; discriminate E.
Defined.

(** ** Everybody's subtotals, in exact arithmetic *)

Lemma fold_left_total (l : list Qc) (a : Qc) :
  List.fold_left Qcplus l a = (a + total_exact l)%Qc.
Proof.
  revert a; induction l as [|x l IH]; intros a; simpl.
  - now rewrite Qcplus_0_r.
  - rewrite IH. now rewrite Qcplus_assoc.
Qed.

Lemma total_map_plus {A : Type} (f g : A -> Qc) (l : list A) :
  total_exact (List.map (fun x => (f x + g x)%Qc) l) =
  (total_exact (List.map f l) + total_exact (List.map g l))%Qc.
Proof.
  induction l as [|x l IH]; simpl.
  - now rewrite Qcplus_0_r.
  - rewrite IH. ring.
Qed.

Lemma total_map_indicator {A : Type} (p : A -> bool) (x : Qc) (l : list A) :
  total_exact (List.map (fun a => if p a then x else 0%Qc) l) =
  (nof_nat (List.length (List.filter p l)) * x)%Qc.
Proof.
  induction l as [|a l IH]; simpl List.map; simpl List.filter.
  - simpl. now rewrite Qcmult_0_l.
  - simpl total_exact. rewrite IH. destruct (p a); simpl List.length.
    + rewrite nof_nat_succ_exact. ring.
    + now rewrite Qcplus_0_l.
Qed.

Lemma total_filter_indicator {A : Type} (p : A -> bool) (f : A -> Qc)
      (l : list A) :
  total_exact (List.map f (List.filter p l)) =
  total_exact (List.map (fun a => if p a then f a else 0%Qc) l).
Proof.
  unfold total_exact.
  induction l as [|a l IH]; cbn [List.map List.filter List.fold_right].
  - reflexivity.
  - destruct (p a); cbn [List.map List.fold_right]; rewrite IH.
    + reflexivity.
    + now rewrite Qcplus_0_l.
Qed.

Lemma subtotal_exact_total (items : list (Item.t Qc))
      (claims : list (Claim.t Qc)) (b : Bill.t Qc) (u : User.t) :
  subtotal (myTotals items claims (Some b) (Some u)) =
  total_exact
    (List.map (fun i => if isMine claims u i
                        then (Item.unit_price i /
                              nof_nat (splitCount claims i))%Qc
                        else 0%Qc)
              items).
Proof.
  unfold myTotals, myTotals_run.
  set (acc := List.fold_left _ _ _).
  assert (E : mySubtotal acc =
              total_exact
                (List.map (fun i => if isMine claims u i
                                    then (Item.unit_price i /
                                          nof_nat (splitCount claims i))%Qc
                                    else 0%Qc) items)).
  { unfold acc. rewrite fold_mySubtotal. simpl mySubtotal.
    change (@nadd Qc exact_ops) with Qcplus.
    change (@nzero Qc exact_ops) with (Q2Qc 0).
    rewrite fold_left_total, Qcplus_0_l.
    change (@ndiv Qc exact_ops) with Qcdiv.
    apply total_filter_indicator. }
  destruct (ratio acc) as [r divs]. exact E.
Qed.

Lemma NoDup_map_filter {A B : Type} (f : A -> B) (p : A -> bool)
      (l : list A) :
  List.NoDup (List.map f l) -> List.NoDup (List.map f (List.filter p l)).
Proof.
  induction l as [|x l IH]; simpl; intros ND.
  - constructor.
  - inversion ND as [|y l' Hnot ND' E]; subst.
    destruct (p x); simpl; [|now apply IH].
    constructor; [|now apply IH].
    intros Hin. apply Hnot.
    apply List.in_map_iff in Hin. destruct Hin as (z & Ez & Hz).
    apply List.filter_In in Hz. destruct Hz as [Hz _].
    rewrite <- Ez. now apply List.in_map.
Qed.

Lemma claimants_counted_once (claims : list (Claim.t Qc))
      (users : list User.t) (i : Item.t Qc) :
  List.NoDup (List.map User.id users) ->
  Forall (fun c => In (Claim.user_id c) (List.map User.id users)) claims ->
  List.NoDup (List.map Claim.user_id (itemClaimants claims i)) ->
  List.length (List.filter (fun u => isMine claims u i) users) =
  splitCount claims i.
Proof.
  intros NU Cover ND. unfold splitCount.
  rewrite <- (List.length_map Claim.user_id (itemClaimants claims i)).
  rewrite <- (List.length_map User.id
                (List.filter (fun u => isMine claims u i) users)).
  apply Permutation_length. apply Sorting.Permutation.NoDup_Permutation.
  - now apply NoDup_map_filter.
  - exact ND.
  - intros x. split.
    + intros Hin. apply List.in_map_iff in Hin.
      destruct Hin as (u & Eu & Hu).
      apply List.filter_In in Hu. destruct Hu as [_ M].
      unfold isMine in M. apply existsb_user_id in M. now rewrite <- Eu.
    + intros Hin.
      assert (Hx : In x (List.map User.id users)).
      { apply List.in_map_iff in Hin. destruct Hin as (c & Ec & Hc).
        unfold itemClaimants in Hc. apply List.filter_In in Hc.
        destruct Hc as [Hc _].
        rewrite Forall_forall in Cover. rewrite <- Ec. now apply Cover. }
      apply List.in_map_iff in Hx. destruct Hx as (u & Eu & Hu).
      apply List.in_map_iff. exists u. split; [exact Eu|].
      apply List.filter_In. split; [exact Hu|].
      unfold isMine. apply existsb_user_id. now rewrite Eu.
Qed.

Lemma subtotals_exact_claimed (items : list (Item.t Qc))
      (claims : list (Claim.t Qc)) (b : Bill.t Qc) (users : list User.t) :
  List.NoDup (List.map User.id users) ->
  Forall (fun c => In (Claim.user_id c) (List.map User.id users)) claims ->
  Forall (fun i => List.NoDup
                     (List.map Claim.user_id (itemClaimants claims i)))
         items ->
  total_exact (subtotals_exact items claims b users) =
  total_exact (List.map Item.unit_price (claimed_items claims items)).
Proof.
  intros NU Cover ND.
  unfold subtotals_exact.
    rewrite (List.map_ext _ _ (subtotal_exact_total items claims b)).
    induction ND as [|i items NDi _ IH].
    - simpl. clear. induction users as [|u users IH]; simpl.
      + reflexivity.
      + rewrite IH. apply Qcplus_0_l.
    - pose (f := fun u : User.t =>
                   if isMine claims u i
                   then (Item.unit_price i / nof_nat (splitCount claims i))%Qc
                   else 0%Qc).
      pose (g := fun u : User.t =>
                   total_exact
                     (List.map
                        (fun j => if isMine claims u j
                                  then (Item.unit_price j /
                                        nof_nat (splitCount claims j))%Qc
                                  else 0%Qc) items)).
      transitivity (total_exact (List.map (fun u => (f u + g u)%Qc) users));
        [reflexivity|].
      rewrite total_map_plus. unfold g. rewrite IH. unfold f.
      rewrite total_map_indicator.
      rewrite (claimants_counted_once claims users i NU Cover NDi).
      unfold claimed_items. cbn [List.filter].
      destruct (splitCount claims i) as [|n] eqn:En.
      + cbn [Nat.ltb Nat.leb]. now rewrite Qcmult_0_l, Qcplus_0_l.
      + cbn [Nat.ltb Nat.leb List.map]. unfold total_exact.
        cbn [List.fold_right]. f_equal.
        apply Qcmult_div_r. apply nof_nat_nonzero_exact. lia.
Qed.

Lemma claimed_items_all {num : Type} `{NumOps num}
      (claims : list (Claim.t num)) (items : list (Item.t num)) :
  Forall (fun i => 1 <= splitCount claims i) items ->
  claimed_items claims items = items.
Proof.
  unfold claimed_items. induction 1 as [|i items Hi _ IH]; simpl.
  - reflexivity.
  - destruct (splitCount claims i) as [|n]; [lia|]. simpl. now rewrite IH.
Qed.

Lemma subtotals_exact_all (items : list (Item.t Qc))
      (claims : list (Claim.t Qc)) (b : Bill.t Qc) (users : list User.t) :
  List.NoDup (List.map User.id users) ->
  Forall (fun c => In (Claim.user_id c) (List.map User.id users)) claims ->
  Forall (fun i => List.NoDup
                     (List.map Claim.user_id (itemClaimants claims i)))
         items ->
  Forall (fun i => 1 <= splitCount claims i) items ->
  total_exact (subtotals_exact items claims b users) =
  total_exact (List.map Item.unit_price items).
Proof.
  intros NU Cover ND All.
  rewrite (subtotals_exact_claimed items claims b users NU Cover ND).
  now rewrite (claimed_items_all claims items All).
Qed.



Lemma total_map_scale {A : Type} (k m : Qc) (f : A -> Qc) (l : list A) :
  total_exact (List.map (fun x => (k * (f x * m))%Qc) l) =
  (k * (total_exact (List.map f l) * m))%Qc.
Proof.
  induction l as [|x l IH]; simpl.
  - ring.
  - rewrite IH. ring.
Qed.

Lemma myTotals_exact_positive (items : list (Item.t Qc))
      (claims : list (Claim.t Qc)) (b : Bill.t Qc) (u : User.t) :
  let whole := total_exact (List.map Item.unit_price items) in
  let mine := subtotal (myTotals items claims (Some b) (Some u)) in
  Qc_gtb whole 0%Qc = true ->
  myTotals items claims (Some b) (Some u) =
  mkTotals mine
           (Bill.tax_amount b * (mine * / whole))%Qc
           (Bill.tip_amount b * (mine * / whole))%Qc
           (mine + Bill.tax_amount b * (mine * / whole)
                 + Bill.tip_amount b * (mine * / whole))%Qc.
Proof.
  intros whole mine P. unfold mine, myTotals, myTotals_run.
  set (acc := List.fold_left _ _ _).
  assert (Eb : billSubtotal acc = whole).
  { unfold acc. rewrite fold_billSubtotal. simpl billSubtotal.
    change (@nadd Qc exact_ops) with Qcplus.
    change (@nzero Qc exact_ops) with (Q2Qc 0).
    now rewrite fold_left_total, Qcplus_0_l. }
  unfold ratio. rewrite Eb.
  change (@ngtb Qc exact_ops) with Qc_gtb.
  change (@nzero Qc exact_ops) with (Q2Qc 0).
  rewrite P. reflexivity.
Qed.

(** X20: in exact arithmetic the whole bill is distributed: when the users
    have distinct ids, every claim row names one of them, every item has a
    claim row, no user has two rows on one item and the sum of the prices is
    positive, the users' tax shares add up to the bill's tax, their tip
    shares to the bill's tip, and their totals to the sum of all prices plus
    tax plus tip. *)
Theorem bill_fully_distributed (items : list (Item.t Qc))
        (claims : list (Claim.t Qc)) (b : Bill.t Qc) (users : list User.t) :
  List.NoDup (List.map User.id users) ->
  Forall (fun c => In (Claim.user_id c) (List.map User.id users)) claims ->
  Forall (fun i => List.NoDup
                     (List.map Claim.user_id (itemClaimants claims i)))
         items ->
  Forall (fun i => 1 <= splitCount claims i) items ->
  Qc_gtb (total_exact (List.map Item.unit_price items)) 0%Qc = true ->
  let of_users (field : Totals Qc -> Qc) :=
    total_exact
      (List.map (fun u => field (myTotals items claims (Some b) (Some u)))
                users) in
  of_users tax = Bill.tax_amount b /\
  of_users tip = Bill.tip_amount b /\
  of_users total =
    (total_exact (List.map Item.unit_price items)
     + Bill.tax_amount b + Bill.tip_amount b)%Qc.
Proof.
  intros NU Cover ND All P of_users.
  set (whole := total_exact (List.map Item.unit_price items)) in *.
  assert (S : of_users subtotal = whole).
  { exact (subtotals_exact_all items claims b users NU Cover ND All). }
  assert (N : whole <> 0%Qc).
  { intros Z. rewrite Z in P. discriminate P. }
  assert (R : forall k, (k * (whole * / whole))%Qc = k).
  { intros k. now rewrite Qcmult_inv_r, Qcmult_1_r. }
  assert (T : of_users tax = Bill.tax_amount b).
  { unfold of_users.
    rewrite (List.map_ext _
               (fun u => (Bill.tax_amount b *
                          (subtotal (myTotals items claims (Some b) (Some u))
                           * / whole))%Qc)).
    - rewrite total_map_scale. fold (of_users subtotal). rewrite S. apply R.
    - intros u. now rewrite (myTotals_exact_positive items claims b u P). }
  assert (I : of_users tip = Bill.tip_amount b).
  { unfold of_users.
    rewrite (List.map_ext _
               (fun u => (Bill.tip_amount b *
                          (subtotal (myTotals items claims (Some b) (Some u))
                           * / whole))%Qc)).
    - rewrite total_map_scale. fold (of_users subtotal). rewrite S. apply R.
    - intros u. now rewrite (myTotals_exact_positive items claims b u P). }
  split; [exact T|]. split; [exact I|].
  transitivity (of_users subtotal + of_users tax + of_users tip)%Qc;
    [|now rewrite S, T, I].
  unfold of_users.
  rewrite <- !total_map_plus. f_equal.
  apply List.map_ext. intros u.
  now rewrite (myTotals_exact_positive items claims b u P).
Qed.

(** The witness of X20: the tax of 20 on Alice's and Bob's bill. *)
Lemma bill_fully_distributed_witness :
  total_exact
    (List.map (fun u => tax (myTotals Demo.menu Demo.rows
                                      (Some (Sample.bill 20 10)) (Some u)))
              [Sample.alice; Sample.bob]) =
  Bill.tax_amount (Sample.bill (num := Qc) 20 10).
Proof.
  refine (proj1 (bill_fully_distributed Demo.menu Demo.rows
                   (Sample.bill 20 10) [Sample.alice; Sample.bob]
                   _ _ _ _ _)).
  - repeat constructor; simpl; intuition discriminate.
  - repeat (apply Forall_cons; [simpl; auto|]). apply Forall_nil.
  - repeat (apply Forall_cons;
            [vm_compute; repeat constructor; simpl; intuition discriminate|]).
    apply Forall_nil.
  - repeat (apply Forall_cons; [vm_compute; lia|]). apply Forall_nil.
  - vm_compute. reflexivity.
Defined.

(** ** From the Join button to the claim request *)

Section JoinThenClaim.
Context {num : Type}.
Implicit Types (w : World (num := num)).

(** X21: the identity typed at the Join button is the one the server
    receives: after a click on Join with a name that is not empty once
    trimmed, a click on an item sends the fresh id and the name as typed in
    the body of the request, with the item's id. *)
Theorem join_then_claim (newId url billId : string) (net : FetchOutcome)
        (item : Item.t num) w :
  user (hook w) = None ->
  trim (inputName w) <> "" ->
  url <> "" ->
  exists rest,
    events_of (itemClick (Some url) net billId item
                         (world_of (joinClick newId w))) =
    FetchPost (url ++ "/v1/bills/" ++ billId ++ "/claim")
              (mkBody (Item.id item) newId (inputName w)) :: rest.
Proof.
  intros U T N.
  assert (V : modalVisible w && negb (joinDisabled w) = true).
  { unfold modalVisible, joinDisabled. rewrite U. simpl.
    apply String.eqb_neq in T. now rewrite T. }
  assert (J : user (hook (world_of (joinClick newId w))) =
              Some (User.mk newId (inputName w))).
  { unfold joinClick. rewrite V. reflexivity. }
  unfold itemClick.
  rewrite (handleClaim_sent url net billId (Item.id item) _ _ J N).
  eexists. reflexivity.
Qed.

End JoinThenClaim.

(** The witness of X21: ["Al"] joins and taps the first item. *)
Lemma join_then_claim_witness :
  exists rest,
    events_of (itemClick (Some "https://api.example") (Responded 201) "b1"
                         (Sample.item "i1" 90)
                         (world_of (joinClick "id-1" (Demo.typing "Al")))) =
    FetchPost "https://api.example/v1/bills/b1/claim"
              (mkBody "i1" "id-1" "Al") :: rest.
Proof.
  apply (join_then_claim "id-1" "https://api.example" "b1" (Responded 201)
           (Sample.item "i1" 90) (Demo.typing "Al")).
  - reflexivity.
  - vm_compute. intros E. discriminate E.
  - intros E. discriminate E.
Defined.



(** A name made of one NO-BREAK SPACE (bytes C2 A0) is empty once
    trimmed, so the Join button stays disabled. *)
Example no_break_space_is_blank :
  let nbsp := String (ascii_of_nat 194) (String (ascii_of_nat 160) "") in
  trim nbsp = "" /\
  trim (nbsp ++ " Al" ++ nbsp) = "Al" /\
  joinClick "id-1" (Demo.typing nbsp) = (tt, Demo.typing nbsp, []).
Proof. repeat split. Qed.
